(** * goworkshop: the zero-copy struct conversion [ConvertTo] of main.go

    A shallow embedding of [ConvertTo], [validKinds], [isValidKind] and of the
    demonstration in [main], together with the part of Go's [reflect] package
    the function calls, and the properties of the conversion that the
    specification states. *)

From stdpp Require Import base gmap list strings.
From Stdlib Require Import ZArith.

Open Scope string_scope.

(** ** Panics *)

(** The panics of [ConvertTo], one constructor per [panic] statement of the
    source, and the run-time panics raised by [reflect] or by the Go runtime.
    The panic value of the program is only the message ([panicMessage]); the
    index carried by the two per-field panics is the value of the loop
    variable [i] when the panic is raised. *)
Inductive Panic : Type :=
| InvalidSourceShape
| InvalidTargetShape
| RedundantConversion
| TargetTooLarge
| FieldKindMismatch (index : nat)
| UnsupportedFieldKind (index : nat)
| RuntimeError (msg : string).

Definition panicMessage (p : Panic) : string :=
  match p with
  | InvalidSourceShape => "T1 must be a pointer to struct"
  | InvalidTargetShape => "T2 must be a struct"
  | RedundantConversion => "T1 must not be a type definition of T2 or vice versa"
  | TargetTooLarge => "T2 must be no larger than T1"
  | FieldKindMismatch _ => "T2 and T1 must have the same field type"
  | UnsupportedFieldKind _ => "T2 or T1 must be a valid type"
  | RuntimeError msg => msg
  end.

(** A computation that returns or panics. *)
Inductive result (A : Type) : Type :=
| Returned (a : A)
| Panicked (p : Panic).
Arguments Returned {A} a.
Arguments Panicked {A} p.

#[global] Instance result_ret : MRet result := fun _ a => Returned a.
#[global] Instance result_bind : MBind result := fun _ _ f m =>
  match m with
  | Returned a => f a
  | Panicked p => Panicked p
  end.

Definition nilDereference : Panic :=
  RuntimeError "runtime error: invalid memory address or nil pointer dereference".

(** ** The part of package [reflect] that main.go uses *)

Module reflect.

(** [reflect.Kind], in the order of the Go declaration. *)
Inductive Kind : Set :=
| Invalid | Bool
| Int | Int8 | Int16 | Int32 | Int64
| Uint | Uint8 | Uint16 | Uint32 | Uint64 | Uintptr
| Float32 | Float64 | Complex64 | Complex128
| Array | Chan | Func | Interface | Map | Pointer | Slice
| String | Struct | UnsafePointer.

#[global] Instance Kind_eq_dec : EqDecision Kind.
Proof. solve_decision. Defined.

(** [reflect.StructField], reduced to the two members that matter here. *)
Record StructField (T : Type) : Type :=
  { Name : string; Typ : T }.
Arguments Name {T} _.
Arguments Typ {T} _.

(** The kinds [Bool <= kind <= Complex128], [String] and [UnsafePointer]. *)
Definition nonComposite (k : Kind) : bool :=
  match k with
  | Invalid | Array | Chan | Func | Interface | Map | Pointer | Slice
  | Struct => false
  | _ => true
  end.

(** Type descriptors ([reflect.Type]).  [Predeclared k] stands for the
    predeclared type of a non-composite kind [k] (bool, int8, ..., string);
    there is no predeclared type of a composite kind, and [Type_Kind] answers
    [Invalid] for such a descriptor.  [Defined n u] stands for a type
    declaration [type n u].  Channel and function
    types are left out: as field types they would only contribute the kinds
    [Chan] and [Func], which the program treats like every other kind
    outside [validKinds]. *)
#[warnings="-register-all"]
Inductive rtype : Type :=
| Predeclared (k : Kind)
| PointerTo (elem : rtype)
| SliceOf (elem : rtype)
| ArrayOf (len : nat) (elem : rtype)
| MapOf (key elem : rtype)
| InterfaceOf (methods : list string)
| StructOf (fields : list (StructField rtype))
| Defined (name : string) (underlying : rtype).

(** [Type.Kind]. *)
Fixpoint Type_Kind (t : rtype) : Kind :=
  match t with
  | Predeclared k => if nonComposite k then k else Invalid
  | PointerTo _ => Pointer
  | SliceOf _ => Slice
  | ArrayOf _ _ => Array
  | MapOf _ _ => Map
  | InterfaceOf _ => Interface
  | StructOf _ => Struct
  | Defined _ u => Type_Kind u
  end.

(** The underlying type: declarations are followed down to a type literal
    or a predeclared type. *)
Fixpoint underlying (t : rtype) : rtype :=
  match t with
  | Defined _ u => underlying u
  | _ => t
  end.


(** [Type.Elem]: panics unless the kind is Array, Chan, Map, Pointer or
    Slice. *)
Definition Type_Elem (t : rtype) : result rtype :=
  match underlying t with
  | PointerTo e | SliceOf e | ArrayOf _ e | MapOf _ e => Returned e
  | _ => Panicked (RuntimeError "reflect: Elem of invalid type")
  end.

(** The fields of a struct type (empty for every other type). *)
Definition fieldsOf (t : rtype) : list (StructField rtype) :=
  match underlying t with
  | StructOf fs => fs
  | _ => []
  end.

(** [Type.NumField]: panics unless the kind is Struct. *)
Definition Type_NumField (t : rtype) : result nat :=
  match underlying t with
  | StructOf fs => Returned (length fs)
  | _ => Panicked (RuntimeError "reflect: NumField of non-struct type")
  end.

(** [Type.Field]: panics unless the kind is Struct and [i] is in range. *)
Definition Type_Field (t : rtype) (i : nat) : result (StructField rtype) :=
  match underlying t with
  | StructOf fs =>
      match fs !! i with
      | Some f => Returned f
      | None => Panicked (RuntimeError "reflect: Field index out of bounds")
      end
  | _ => Panicked (RuntimeError "reflect: Field of non-struct type")
  end.

(** [Kind.String], the names of the predeclared types. *)
Definition Kind_String (k : Kind) : string :=
  match k with
  | Invalid => "invalid" | Bool => "bool"
  | Int => "int" | Int8 => "int8" | Int16 => "int16" | Int32 => "int32"
  | Int64 => "int64"
  | Uint => "uint" | Uint8 => "uint8" | Uint16 => "uint16"
  | Uint32 => "uint32" | Uint64 => "uint64" | Uintptr => "uintptr"
  | Float32 => "float32" | Float64 => "float64"
  | Complex64 => "complex64" | Complex128 => "complex128"
  | Array => "array" | Chan => "chan" | Func => "func"
  | Interface => "interface" | Map => "map" | Pointer => "ptr"
  | Slice => "slice" | String => "string" | Struct => "struct"
  | UnsafePointer => "unsafe.Pointer"
  end.

(** [Type.Name] and [Type.PkgPath]: empty for type literals; every declared
    type of the program lives in package main. *)
Definition Type_Name (t : rtype) : string :=
  match t with
  | Predeclared UnsafePointer => "Pointer"
  | Predeclared k => Kind_String k
  | Defined n _ => n
  | _ => ""
  end.

Definition Type_PkgPath (t : rtype) : string :=
  match t with
  | Predeclared UnsafePointer => "unsafe"
  | Defined _ _ => "main"
  | _ => ""
  end.

(** The first test of [haveIdenticalType(T, V, false)]: same name, same kind,
    same package. *)
Definition sameHeader (T V : rtype) : bool :=
  String.eqb (Type_Name T) (Type_Name V)
  && bool_decide (Type_Kind T = Type_Kind V)
  && String.eqb (Type_PkgPath T) (Type_PkgPath V).

(** The comparison [T == V] of two type descriptors.  The runtime keeps one
    descriptor per type, so the pointers are equal exactly when the types
    are the same. *)
Fixpoint rtype_eqb (T V : rtype) {struct T} : bool :=
  match T, V with
  | Predeclared k, Predeclared k' => bool_decide (k = k')
  | PointerTo e, PointerTo e' => rtype_eqb e e'
  | SliceOf e, SliceOf e' => rtype_eqb e e'
  | ArrayOf n e, ArrayOf n' e' => Nat.eqb n n' && rtype_eqb e e'
  | MapOf k e, MapOf k' e' => rtype_eqb k k' && rtype_eqb e e'
  | InterfaceOf ms, InterfaceOf ms' => bool_decide (ms = ms')
  | StructOf fs, StructOf fs' =>
      (fix fields (l l' : list (StructField rtype)) : bool :=
         match l, l' with
         | [], [] => true
         | f :: r, f' :: r' =>
             String.eqb (Name f) (Name f')
             && rtype_eqb (Typ f) (Typ f')
             && fields r r'
         | _, _ => false
         end) fs fs'
  | Defined n u, Defined n' u' => String.eqb n n' && rtype_eqb u u'
  | _, _ => false
  end.

(** [haveIdenticalUnderlyingType(T, V, false)] of reflect/type.go after its
    first test [T == V]: the kinds are compared, then the structure.  Struct
    tags are ignored; field offsets are not compared separately, they are
    determined by the field types in order; all types live in one package
    and no field is embedded.  [haveIdenticalType] on the
    element and field types is written out: same header, then the same
    function with its first test. *)
Fixpoint identicalStructure (T V : rtype) {struct T} : bool :=
  match T with
  | Defined _ u => identicalStructure u V
  | Predeclared k => bool_decide (Type_Kind V = k) && nonComposite k
  | PointerTo e =>
      match underlying V with
      | PointerTo e' =>
          sameHeader e e' && (rtype_eqb e e' || identicalStructure e e')
      | _ => false
      end
  | SliceOf e =>
      match underlying V with
      | SliceOf e' =>
          sameHeader e e' && (rtype_eqb e e' || identicalStructure e e')
      | _ => false
      end
  | ArrayOf n e =>
      match underlying V with
      | ArrayOf n' e' =>
          Nat.eqb n n'
          && sameHeader e e' && (rtype_eqb e e' || identicalStructure e e')
      | _ => false
      end
  | MapOf k e =>
      match underlying V with
      | MapOf k' e' =>
          sameHeader k k' && (rtype_eqb k k' || identicalStructure k k')
          && sameHeader e e' && (rtype_eqb e e' || identicalStructure e e')
      | _ => false
      end
  | InterfaceOf ms =>
      match underlying V with
      | InterfaceOf ms' =>
          match ms, ms' with [], [] => true | _, _ => false end
      | _ => false
      end
  | StructOf fs =>
      match underlying V with
      | StructOf fs' =>
          (fix fields (l l' : list (StructField rtype)) : bool :=
             match l, l' with
             | [], [] => true
             | f :: r, f' :: r' =>
                 String.eqb (Name f) (Name f')
                 && sameHeader (Typ f) (Typ f')
                 && (rtype_eqb (Typ f) (Typ f')
                     || identicalStructure (Typ f) (Typ f'))
                 && fields r r'
             | _, _ => false
             end) fs fs'
      | _ => false
      end
  end.

(** The field-by-field loop of the struct case. *)
Definition identicalFields : list (StructField rtype) ->
                             list (StructField rtype) -> bool :=
  fix fields (l l' : list (StructField rtype)) : bool :=
    match l, l' with
    | [], [] => true
    | f :: r, f' :: r' =>
        String.eqb (Name f) (Name f')
        && sameHeader (Typ f) (Typ f')
        && (rtype_eqb (Typ f) (Typ f') || identicalStructure (Typ f) (Typ f'))
        && fields r r'
    | _, _ => false
    end.

Definition haveIdenticalUnderlyingType (T V : rtype) : bool :=
  rtype_eqb T V || identicalStructure T V.

Definition haveIdenticalType (T V : rtype) : bool :=
  sameHeader T V && haveIdenticalUnderlyingType T V.

(** [Type.ConvertibleTo], for the one case in which the program calls it:
    receiver and argument both of kind Struct.  There [convertOp(dst, src)]
    of reflect/value.go skips its per-kind cases (selected by numeric, string,
    slice and channel source kinds) and its pointer and interface cases
    (selected by the destination kind), and answers
    [haveIdenticalUnderlyingType(dst, src, false)]. *)
Definition Type_ConvertibleTo (t u : rtype) : bool :=
  haveIdenticalUnderlyingType u t.

(** Go values.  Integers of every width are [VInt], floats are kept as their
    bit pattern, a pointer is an address or nil, a struct is the sequence of
    its field values in declaration order, and a value of interface type
    carries its dynamic type. *)
Definition addr := N.

#[warnings="-register-all"]
Inductive Value : Type :=
| VBool (b : bool)
| VInt (z : Z)
| VFloat (bits : Z)
| VString (s : string)
| VPointer (p : option addr)
| VStruct (fields : list Value)
| VInterface (dyn : option (rtype * Value)).

(** [reflect.TypeOf(v)] for [v] of static type [T]: the argument is converted
    to [any], so an interface-typed [v] yields its dynamic type, and nil when
    it is the nil interface. *)
Definition TypeOf (T : rtype) (v : Value) : option rtype :=
  if bool_decide (Type_Kind T = Interface) then
    match v with
    | VInterface (Some (dyn, _)) => Some dyn
    | _ => None
    end
  else Some T.

(** [reflect.TypeOf] of the zero value of [T]. *)
Definition TypeOf_zero (T : rtype) : option rtype :=
  if bool_decide (Type_Kind T = Interface) then None else Some T.

(** [reflect.ValueOf(v)]: the concrete value stored in the interface. *)
Definition ValueOf (v : Value) : Value :=
  match v with
  | VInterface (Some (_, c)) => c
  | _ => v
  end.

(** [Value.UnsafePointer] on a pointer value. *)
Definition Value_UnsafePointer (v : Value) : result (option addr) :=
  match v with
  | VPointer p => Returned p
  | _ => Panicked (RuntimeError "reflect: call of reflect.Value.UnsafePointer on non-pointer Value")
  end.

End reflect.

(** ** Program state *)

(** The memory of the program: the objects on the heap, the next free
    address, the addresses read through an unsafe pointer so far (in reverse
    order), and the values printed so far (in reverse order). *)
Record State : Type := mkState
  { heap : gmap reflect.addr reflect.Value;
    next : reflect.addr;
    unsafe_reads : list reflect.addr;
    stdout : list reflect.Value }.

(** Stateful computations that return or panic. *)
Definition M (A : Type) : Type := State -> result A * State.

#[global] Instance M_ret : MRet M := fun _ a s => (Returned a, s).
#[global] Instance M_bind : MBind M := fun _ _ f m s =>
  match m s with
  | (Returned a, s') => f a s'
  | (Panicked p, s') => (Panicked p, s')
  end.

(** A computation without effects, run inside [M]. *)
Definition lift {A : Type} (r : result A) : M A := fun s => (r, s).

(** A variable whose address is taken: a fresh heap object. *)
Definition alloc (v : reflect.Value) : M reflect.addr := fun s =>
  (Returned (next s),
   {| heap := <[next s := v]> (heap s);
      next := N.succ (next s);
      unsafe_reads := unsafe_reads s;
      stdout := stdout s |}).

(** [*p] for an ordinary pointer. *)
Definition deref (p : reflect.Value) : M reflect.Value := fun s =>
  match p with
  | reflect.VPointer (Some a) =>
      match heap s !! a with
      | Some v => (Returned v, s)
      | None => (Panicked (RuntimeError "unexpected fault address"), s)
      end
  | _ => (Panicked nilDereference, s)
  end.

(** [v.f] for the [i]-th field of a struct value. *)
Definition field (v : reflect.Value) (i : nat) : M reflect.Value :=
  lift match v with
       | reflect.VStruct fs =>
           match fs !! i with
           | Some x => Returned x
           | None => Panicked (RuntimeError "no such field")
           end
       | _ => Panicked (RuntimeError "not a struct")
       end.

(** [fmt.Println(v)]. *)
Definition Println (v : reflect.Value) : M unit := fun s =>
  (Returned tt,
   {| heap := heap s; next := next s; unsafe_reads := unsafe_reads s;
      stdout := v :: stdout s |}).

(** The load through [p] converted to a pointer to [T2] (line 103): the
    object at [p] read as a [T2].  At the level of fields
    the read yields the leading fields of the stored struct, as many as [T2]
    declares; this presumes what the checks of [ConvertTo] are there to
    establish, that these fields lie at the same offsets in both types. *)
Definition unsafeLoad (T2 : reflect.rtype) (p : option reflect.addr)
  : M reflect.Value := fun s =>
  match p with
  | None => (Panicked nilDereference, s)
  | Some a =>
      match heap s !! a with
      | Some (reflect.VStruct fs) =>
          (Returned (reflect.VStruct (take (length (reflect.fieldsOf T2)) fs)),
           {| heap := heap s; next := next s;
              unsafe_reads := a :: unsafe_reads s;
              stdout := stdout s |})
      | _ => (Panicked (RuntimeError "unexpected fault address"), s)
      end
  end.

(** ** main.go *)

(** [validKinds] (lines 107-119).  The variable is never assigned to. *)
Definition validKinds : list reflect.Kind :=
  [ reflect.Bool;
    reflect.Int;
    reflect.Int8;
    reflect.Int32;
    reflect.Int64;
    reflect.Uint;
    reflect.Uint8;
    reflect.Uint32;
    reflect.Uint64;
    reflect.Float32;
    reflect.Float64 ].

(** [isValidKind] (lines 121-128): the range loop over [validKinds]. *)
Definition isValidKind (kind : reflect.Kind) : bool :=
  (fix range (l : list reflect.Kind) : bool :=
     match l with
     | [] => false
     | validKind :: rest =>
         if bool_decide (kind = validKind) then true else range rest
     end) validKinds.

(** [for i := from; i < from + n; i++ { body }]. *)
Fixpoint forRange (from n : nat) (body : nat -> result unit) : result unit :=
  match n with
  | 0 => Returned tt
  | S n' => _ ← body from; forRange (S from) n' body
  end.

(** A method call on a [reflect.Type] that may be the nil interface. *)
Definition receiver (ttyp : option reflect.rtype) : result reflect.rtype :=
  match ttyp with
  | Some t => Returned t
  | None => Panicked nilDereference
  end.

(** One pointer level is removed from a field type (lines 93-98). *)
Definition stripPointer (ftyp : reflect.rtype) : result reflect.rtype :=
  if bool_decide (reflect.Type_Kind ftyp = reflect.Pointer)
  then reflect.Type_Elem ftyp
  else Returned ftyp.

(** The body of the loop of [ConvertTo] (lines 88-101). *)
Definition checkField (elmTyp1 elmTyp2 : reflect.rtype) (i : nat)
  : result unit :=
  f2 ← reflect.Type_Field elmTyp2 i;
  let ftyp2 := reflect.Typ f2 in
  f1 ← reflect.Type_Field elmTyp1 i;
  let ftyp1 := reflect.Typ f1 in
  if negb (bool_decide (reflect.Type_Kind ftyp1 = reflect.Type_Kind ftyp2))
  then Panicked (FieldKindMismatch i)
  else
    ftyp1 ← stripPointer ftyp1;
    ftyp2 ← stripPointer ftyp2;
    if negb (isValidKind (reflect.Type_Kind ftyp1))
       || negb (isValidKind (reflect.Type_Kind ftyp2))
    then Panicked (UnsupportedFieldKind i)
    else Returned tt.

(** The checks of [ConvertTo] (lines 73-102) on the two reflected types. *)
Definition validate (ttyp1 ttyp2 : option reflect.rtype) : result unit :=
  t1 ← receiver ttyp1;
  bad1 ← (if negb (bool_decide (reflect.Type_Kind t1 = reflect.Pointer))
          then Returned true
          else e ← reflect.Type_Elem t1;
               Returned (negb (bool_decide
                                 (reflect.Type_Kind e = reflect.Struct))));
  if bad1 : bool then Panicked InvalidSourceShape
  else
    t2 ← receiver ttyp2;
    if negb (bool_decide (reflect.Type_Kind t2 = reflect.Struct))
    then Panicked InvalidTargetShape
    else
      elmTyp1 ← reflect.Type_Elem t1;
      let elmTyp2 := t2 in
      if reflect.Type_ConvertibleTo elmTyp1 elmTyp2
      then Panicked RedundantConversion
      else
        n ← reflect.Type_NumField elmTyp1;
        m ← reflect.Type_NumField elmTyp1;
        if (n <? m)%nat then Panicked TargetTooLarge
        else
          n2 ← reflect.Type_NumField elmTyp2;
          forRange 0 n2 (checkField elmTyp1 elmTyp2).

(** [ConvertTo[T1, T2](t1)] (lines 70-105). *)
Definition ConvertTo (T1 T2 : reflect.rtype) (t1 : reflect.Value)
  : M reflect.Value :=
  let ttyp1 := reflect.TypeOf T1 t1 in
  let ttyp2 := reflect.TypeOf_zero T2 in
  _ ← lift (validate ttyp1 ttyp2);
  p ← lift (reflect.Value_UnsafePointer (reflect.ValueOf t1));
  unsafeLoad T2 p.

(** The demonstration types (lines 130-138). *)
Definition Type1 : reflect.rtype :=
  reflect.Defined "Type1"
    (reflect.StructOf
       [ {| reflect.Name := "t1"; reflect.Typ := reflect.Predeclared reflect.Int8 |};
         {| reflect.Name := "t2";
            reflect.Typ := reflect.PointerTo (reflect.Predeclared reflect.Int32) |};
         {| reflect.Name := "t3"; reflect.Typ := reflect.Predeclared reflect.String |} ]).

Definition Type2 : reflect.rtype :=
  reflect.Defined "Type2"
    (reflect.StructOf
       [ {| reflect.Name := "tt1"; reflect.Typ := reflect.Predeclared reflect.Int8 |};
         {| reflect.Name := "tt2";
            reflect.Typ := reflect.PointerTo (reflect.Predeclared reflect.Int32) |} ]).

(** [main] (lines 140-146). *)
Definition main : M unit :=
  two ← alloc (reflect.VInt 2);
  t1 ← alloc (reflect.VStruct
                [ reflect.VInt 1; reflect.VPointer (Some two);
                  reflect.VString "test" ]);
  v1 ← deref (reflect.VPointer (Some t1));
  t1_t2 ← field v1 1;
  x ← deref t1_t2;
  _ ← Println x;
  t2 ← ConvertTo (reflect.PointerTo Type1) Type2 (reflect.VPointer (Some t1));
  t2_tt2 ← field t2 1;
  y ← deref t2_tt2;
  Println y.

(** The state in which the program starts. *)
Definition initial : State :=
  {| heap := ∅; next := 1%N; unsafe_reads := []; stdout := [] |}.


(** ** Notions in which the properties are stated *)

(** The kind of a field type once one pointer level is removed. *)
Definition strippedKind (ftyp : reflect.rtype) : reflect.Kind :=
  match stripPointer ftyp with
  | Returned t => reflect.Type_Kind t
  | Panicked _ => reflect.Invalid
  end.

(** The state after the one unsafe read of a successful conversion. *)
Definition afterRead (a : reflect.addr) (s : State) : State :=
  {| heap := heap s; next := next s;
     unsafe_reads := a :: unsafe_reads s; stdout := stdout s |}.

Section Invariants.
Variables (ttyp1 elmTyp1 T2 : reflect.rtype).

(** Invariant 1: the source is a pointer to a struct, the target a struct. *)
Definition shapesOk : Prop :=
  reflect.Type_Kind ttyp1 = reflect.Pointer
  /\ reflect.Type_Elem ttyp1 = Returned elmTyp1
  /\ reflect.Type_Kind elmTyp1 = reflect.Struct
  /\ reflect.Type_Kind T2 = reflect.Struct.

(** Invariant 2: the target declares no more fields than the source. *)
Definition sizeOk : Prop :=
  length (reflect.fieldsOf T2) <= length (reflect.fieldsOf elmTyp1).

(** Invariant 3: the two struct types are not convertible. *)
Definition notRedundant : Prop :=
  reflect.Type_ConvertibleTo elmTyp1 T2 = false.

(** Invariant 4 in the words of the specification: at every index of the
    target the two fields have the same kind after one pointer level is
    removed from each. *)
Definition kindsMatchStripped : Prop :=
  forall i f1 f2,
    reflect.fieldsOf elmTyp1 !! i = Some f1 ->
    reflect.fieldsOf T2 !! i = Some f2 ->
    strippedKind (reflect.Typ f1) = strippedKind (reflect.Typ f2).

(** What the loop compares (line 90): the kinds as declared. *)
Definition kindsMatchDeclared : Prop :=
  forall i f1 f2,
    reflect.fieldsOf elmTyp1 !! i = Some f1 ->
    reflect.fieldsOf T2 !! i = Some f2 ->
    reflect.Type_Kind (reflect.Typ f1) = reflect.Type_Kind (reflect.Typ f2).

(** Invariant 5: after the removal both kinds are allowed. *)
Definition kindsAllowed : Prop :=
  forall i f1 f2,
    reflect.fieldsOf elmTyp1 !! i = Some f1 ->
    reflect.fieldsOf T2 !! i = Some f2 ->
    isValidKind (strippedKind (reflect.Typ f1)) = true
    /\ isValidKind (strippedKind (reflect.Typ f2)) = true.

(** The five invariants as the specification words them. *)
Definition specInvariants : Prop :=
  shapesOk /\ sizeOk /\ notRedundant /\ kindsMatchStripped /\ kindsAllowed.

(** The five invariants as the checks establish them. *)
Definition checkedInvariants : Prop :=
  shapesOk /\ sizeOk /\ notRedundant /\ kindsMatchDeclared /\ kindsAllowed.

End Invariants.

(** "Either all five invariants hold and an aliased target value is returned,
    or the call aborts before the reinterpretation step runs", with the
    invariants in the words of the specification. *)
Definition allOrNothingAsSpecified (T1 T2 : reflect.rtype)
  (t1 : reflect.Value) (s : State) : Prop :=
  (exists ttyp1 elmTyp1 v s',
      reflect.TypeOf T1 t1 = Some ttyp1
      /\ specInvariants ttyp1 elmTyp1 T2
      /\ ConvertTo T1 T2 t1 s = (Returned v, s'))
  \/ (exists p, ConvertTo T1 T2 t1 s = (Panicked p, s)).

(** ** Example types *)

Definition fld (name : string) (t : reflect.rtype)
  : reflect.StructField reflect.rtype :=
  {| reflect.Name := name; reflect.Typ := t |}.

(** The pair that the comment on [ConvertTo] rules out as too large
    (lines 58-67): the source has two fields, the target three. *)
Definition DocSmall : reflect.rtype :=
  reflect.Defined "T1"
    (reflect.StructOf [ fld "tt1" (reflect.Predeclared reflect.Int8);
                        fld "tt2" (reflect.Predeclared reflect.Int32) ]).

Definition DocLarge : reflect.rtype :=
  reflect.Defined "T2"
    (reflect.StructOf [ fld "t1" (reflect.Predeclared reflect.Int8);
                        fld "t2" (reflect.Predeclared reflect.Int32);
                        fld "t3" (reflect.Predeclared reflect.String) ]).

(** A target that is both larger than [DocSmall] and of another kind in its
    first field. *)
Definition LargeSwapped : reflect.rtype :=
  reflect.Defined "T2"
    (reflect.StructOf [ fld "t1" (reflect.Predeclared reflect.Int32);
                        fld "t2" (reflect.Predeclared reflect.Int8);
                        fld "t3" (reflect.Predeclared reflect.String) ]).

(** [type Renamed Type1]. *)
Definition Renamed : reflect.rtype := reflect.Defined "Renamed" Type1.

(** A pointer field against a plain field of the pointee's kind. *)
Definition HasPtrInt32 : reflect.rtype :=
  reflect.Defined "HasPtrInt32"
    (reflect.StructOf
       [ fld "a" (reflect.PointerTo (reflect.Predeclared reflect.Int32));
         fld "b" (reflect.Predeclared reflect.Bool) ]).

Definition HasInt32 : reflect.rtype :=
  reflect.Defined "HasInt32"
    (reflect.StructOf [ fld "x" (reflect.Predeclared reflect.Int32) ]).

(** Two pointer fields with pointees of different kinds. *)
Definition HasPtrInt8 : reflect.rtype :=
  reflect.Defined "HasPtrInt8"
    (reflect.StructOf
       [ fld "a" (reflect.PointerTo (reflect.Predeclared reflect.Int8));
         fld "b" (reflect.Predeclared reflect.Bool) ]).

Definition OnlyPtrInt32 : reflect.rtype :=
  reflect.Defined "OnlyPtrInt32"
    (reflect.StructOf
       [ fld "x" (reflect.PointerTo (reflect.Predeclared reflect.Int32)) ]).



(** The state of [main] when it calls [ConvertTo]: [two] at address 1, [t1]
    at address 2, and the first line printed. *)
Definition beforeCall : State :=
  {| heap := {[ 1%N := reflect.VInt 2;
                2%N := reflect.VStruct [ reflect.VInt 1;
                                         reflect.VPointer (Some 1%N);
                                         reflect.VString "test" ] ]};
     next := 3%N; unsafe_reads := []; stdout := [ reflect.VInt 2 ] |}.

(** A heap with one [int8] variable at address 1 and, at address 2, a struct
    whose first field points to it. *)
Definition oneObject : State :=
  {| heap := {[ 1%N := reflect.VInt 7;
                2%N := reflect.VStruct [ reflect.VPointer (Some 1%N);
                                         reflect.VBool true ] ]};
     next := 3%N; unsafe_reads := []; stdout := [] |}.

(** A source with the leading field types of [Type1] under other names and
    with other trailing fields, and a target with the field types of [Type2]
    under other names. *)
Definition Type1Wide : reflect.rtype :=
  reflect.Defined "Type1Wide"
    (reflect.StructOf
       [ fld "a" (reflect.Predeclared reflect.Int8);
         fld "b" (reflect.PointerTo (reflect.Predeclared reflect.Int32));
         fld "c" (reflect.SliceOf (reflect.Predeclared reflect.Uint8));
         fld "d" (reflect.Predeclared reflect.Bool) ]).

Definition Type2Other : reflect.rtype :=
  reflect.Defined "Type2Other"
    (reflect.StructOf
       [ fld "x" (reflect.Predeclared reflect.Int8);
         fld "y" (reflect.PointerTo (reflect.Predeclared reflect.Int32)) ]).

(** A target with the three field types of [Type1] under other names. *)
Definition Type1Copy : reflect.rtype :=
  reflect.Defined "Type1Copy"
    (reflect.StructOf
       [ fld "x" (reflect.Predeclared reflect.Int8);
         fld "y" (reflect.PointerTo (reflect.Predeclared reflect.Int32));
         fld "z" (reflect.Predeclared reflect.String) ]).

(** A target with the first field type of [Type2] only. *)
Definition OnlyInt8 : reflect.rtype :=
  reflect.Defined "OnlyInt8"
    (reflect.StructOf [ fld "only" (reflect.Predeclared reflect.Int8) ]).

(** [type Empty struct{}]. *)
Definition Empty : reflect.rtype :=
  reflect.Defined "Empty" (reflect.StructOf []).

(** ** Facts about the model of [reflect] *)

Section TypeDescriptors.
Import reflect.

(** Induction on type descriptors that reaches the field types of a struct. *)
Lemma rtype_nested_ind (P : rtype -> Prop)
  (HPre : forall k, P (Predeclared k))
  (HPtr : forall e, P e -> P (PointerTo e))
  (HSlice : forall e, P e -> P (SliceOf e))
  (HArray : forall n e, P e -> P (ArrayOf n e))
  (HMap : forall k e, P k -> P e -> P (MapOf k e))
  (HIface : forall ms, P (InterfaceOf ms))
  (HStruct : forall fs, Forall (fun f => P (Typ f)) fs -> P (StructOf fs))
  (HDef : forall n u, P u -> P (Defined n u)) :
  forall t, P t.
Proof.
  fix IH 1. intros [k|e|e|n e|k e|ms|fs|n u].
  - apply HPre.
  - apply HPtr, IH.
  - apply HSlice, IH.
  - apply HArray, IH.
  - apply HMap; apply IH.
  - apply HIface.
  - apply HStruct. induction fs as [|f fs IHfs]; constructor.
    + apply IH.
    + exact IHfs.
  - apply HDef, IH.
Qed.

Lemma String_eqb_true (a b : string) : String.eqb a b = true <-> a = b.
Proof. apply String.eqb_eq. Qed.

(** [rtype_eqb] decides equality of descriptors. *)
Lemma rtype_eqb_eq (T V : rtype) : rtype_eqb T V = true <-> T = V.
Proof.
  revert V. induction T as [k|e IH|e IH|n e IH|k e IHk IHe|ms|fs IH|n u IH]
    using rtype_nested_ind; intros [k'|e'|e'|n' e'|k' e'|ms'|fs'|n' u'];
    simpl; try (split; [discriminate | intros [=]]).
  - rewrite bool_decide_eq_true. intuition congruence.
  - rewrite IH. intuition congruence.
  - rewrite IH. intuition congruence.
  - rewrite andb_true_iff, Nat.eqb_eq, IH. intuition congruence.
  - rewrite andb_true_iff, IHk, IHe. intuition congruence.
  - rewrite bool_decide_eq_true. intuition congruence.
  - revert fs'. induction IH as [|f fs Hf _ IHfs]; intros [|f' fs'];
      try (split; [discriminate | intros [=]]).
    + split; reflexivity.
    + rewrite !andb_true_iff, String_eqb_true, Hf, IHfs.
      destruct f as [nm ty], f' as [nm' ty']; simpl.
      intuition congruence.
  - rewrite andb_true_iff, String_eqb_true, IH. intuition congruence.
Qed.

Lemma rtype_eqb_refl (T : rtype) : rtype_eqb T T = true.
Proof. now apply rtype_eqb_eq. Qed.

Lemma Type_Kind_underlying (t : rtype) :
  Type_Kind (underlying t) = Type_Kind t.
Proof. induction t; simpl; auto. Qed.

Lemma underlying_idem (t : rtype) : underlying (underlying t) = underlying t.
Proof. induction t; simpl; auto. Qed.

(** A type whose underlying type is a struct literal has kind Struct. *)
Lemma underlying_struct_Kind (t : rtype) fs :
  underlying t = StructOf fs -> Type_Kind t = Struct.
Proof. intros H. now rewrite <- Type_Kind_underlying, H. Qed.

Lemma underlying_pointer_Kind (t e : rtype) :
  underlying t = PointerTo e -> Type_Kind t = Pointer.
Proof. intros H. now rewrite <- Type_Kind_underlying, H. Qed.

(** The structural comparison looks at its first argument through its
    underlying type only. *)
Lemma identicalStructure_underlying (T V : rtype) :
  identicalStructure T V = identicalStructure (underlying T) V.
Proof. induction T; simpl; auto. Qed.

Lemma identicalStructure_struct fs V :
  identicalStructure (StructOf fs) V =
  match underlying V with
  | StructOf fs' => identicalFields fs fs'
  | _ => false
  end.
Proof. reflexivity. Qed.

(** Two fields are compared by name and by [haveIdenticalType]. *)
Lemma identicalFields_cons f r f' r' :
  identicalFields (f :: r) (f' :: r') =
  String.eqb (Name f) (Name f')
  && haveIdenticalType (Typ f) (Typ f')
  && identicalFields r r'.
Proof.
  simpl. unfold haveIdenticalType, haveIdenticalUnderlyingType.
  now rewrite !andb_assoc.
Qed.

Lemma sameHeader_refl (T : rtype) : sameHeader T T = true.
Proof.
  unfold sameHeader. rewrite !String.eqb_refl, bool_decide_true; auto.
Qed.

Lemma identicalFields_refl fs : identicalFields fs fs = true.
Proof.
  induction fs as [|f fs IH]; simpl; [reflexivity|].
  now rewrite String.eqb_refl, sameHeader_refl, rtype_eqb_refl, IH.
Qed.

Lemma identicalFields_length fs fs' :
  identicalFields fs fs' = true -> length fs = length fs'.
Proof.
  revert fs'. induction fs as [|f fs IH]; intros [|f' fs']; simpl;
    try discriminate; auto.
  rewrite !andb_true_iff. intros [_ H]. f_equal. auto.
Qed.

(** Struct types with the same underlying struct literal are convertible. *)
Lemma ConvertibleTo_same_underlying (t u : rtype) fs :
  underlying t = StructOf fs -> underlying u = StructOf fs ->
  Type_ConvertibleTo t u = true.
Proof.
  intros Ht Hu. unfold Type_ConvertibleTo, haveIdenticalUnderlyingType.
  rewrite identicalStructure_underlying, Hu, identicalStructure_struct, Ht.
  rewrite identicalFields_refl. apply orb_true_r.
Qed.

Lemma underlying_not_Defined (t : rtype) n x : underlying t <> Defined n x.
Proof. induction t; simpl; try discriminate; auto. Qed.

(** The kind determines the shape of the underlying type. *)
Lemma Kind_Struct_inv (t : rtype) :
  Type_Kind t = Struct -> exists fs, underlying t = StructOf fs.
Proof.
  induction t as [k| | | | | |fs|]; simpl; try discriminate; eauto.
  destruct k; discriminate.
Qed.

Lemma Kind_Pointer_inv (t : rtype) :
  Type_Kind t = Pointer -> exists e, underlying t = PointerTo e.
Proof.
  induction t as [k|e| | | | | |]; simpl; try discriminate; eauto.
  destruct k; discriminate.
Qed.

Lemma Kind_Interface_inv (t : rtype) :
  Type_Kind t = Interface -> exists ms, underlying t = InterfaceOf ms.
Proof.
  induction t as [k| | | | |ms| |]; simpl; try discriminate; eauto.
  destruct k; discriminate.
Qed.

(** Convertible struct types have the same number of fields. *)
Lemma ConvertibleTo_length (t u : rtype) :
  Type_ConvertibleTo t u = true ->
  Type_Kind u = Struct ->
  length (fieldsOf t) = length (fieldsOf u).
Proof.
  unfold Type_ConvertibleTo, haveIdenticalUnderlyingType.
  rewrite orb_true_iff, rtype_eqb_eq. intros [->|H] Hk; [reflexivity|].
  destruct (Kind_Struct_inv u Hk) as [fs Hu].
  rewrite identicalStructure_underlying, Hu, identicalStructure_struct in H.
  unfold fieldsOf. rewrite Hu.
  destruct (underlying t); try discriminate.
  symmetry. now apply identicalFields_length.
Qed.

End TypeDescriptors.

(** ** The loop and the checks *)

Section Checks.
Import reflect.

Lemma forRange_Returned (body : nat -> result unit) n from :
  forRange from n body = Returned tt <->
  forall i, from <= i < from + n -> body i = Returned tt.
Proof.
  revert from. induction n as [|n IH]; intros from; simpl.
  - split; [intros _ i Hi; lia | reflexivity].
  - destruct (body from) as [[]|p] eqn:Hb; simpl.
    + rewrite IH. split; intros H i Hi.
      * destruct (decide (i = from)) as [->|]; [exact Hb | apply H; lia].
      * apply H; lia.
    + split; [discriminate|]. intros H.
      rewrite H in Hb by lia. discriminate.
Qed.

(** The loop stops at the first iteration that panics. *)
Lemma forRange_first_panic (body : nat -> result unit) n from i p :
  from <= i < from + n ->
  (forall j, from <= j < i -> body j = Returned tt) ->
  body i = Panicked p ->
  forRange from n body = Panicked p.
Proof.
  revert from. induction n as [|n IH]; intros from Hi Hlt Hp; [lia|].
  simpl. destruct (decide (i = from)) as [->|Hne].
  - now rewrite Hp.
  - rewrite Hlt by lia. simpl. apply IH; [lia | | exact Hp].
    intros j Hj. apply Hlt. lia.
Qed.

Lemma forRange_Panicked (body : nat -> result unit) n from p :
  forRange from n body = Panicked p ->
  exists i, from <= i < from + n
            /\ (forall j, from <= j < i -> body j = Returned tt)
            /\ body i = Panicked p.
Proof.
  revert from. induction n as [|n IH]; intros from; simpl; [discriminate|].
  destruct (body from) as [[]|q] eqn:Hb; simpl.
  - intros H. destruct (IH _ H) as (i & Hi & Hlt & Hp).
    exists i. split; [lia|]. split; [|exact Hp].
    intros j Hj. destruct (decide (j = from)) as [->|]; [exact Hb|].
    apply Hlt. lia.
  - intros [= ->]. exists from. split; [lia|]. split; [|exact Hb].
    intros j Hj. lia.
Qed.

Lemma Type_Field_struct (t : rtype) fs i :
  underlying t = StructOf fs ->
  Type_Field t i =
  match fs !! i with
  | Some f => Returned f
  | None => Panicked (RuntimeError "reflect: Field index out of bounds")
  end.
Proof. intros H. unfold Type_Field. now rewrite H. Qed.

Lemma fieldsOf_struct (t : rtype) fs :
  underlying t = StructOf fs -> fieldsOf t = fs.
Proof. intros H. unfold fieldsOf. now rewrite H. Qed.

(** A field lookup that succeeds shows that the type is a struct. *)
Lemma fieldsOf_lookup_struct (t : rtype) i f :
  fieldsOf t !! i = Some f -> underlying t = StructOf (fieldsOf t).
Proof.
  unfold fieldsOf. destruct (underlying t); try discriminate. reflexivity.
Qed.

(** Removing the pointer level never panics: a type of kind Pointer has an
    element type. *)
Lemma stripPointer_strippedKind (ftyp : rtype) :
  exists t, stripPointer ftyp = Returned t /\ Type_Kind t = strippedKind ftyp.
Proof.
  unfold strippedKind, stripPointer. case_bool_decide as Hk; [|eauto].
  destruct (Kind_Pointer_inv _ Hk) as [e He].
  unfold Type_Elem. rewrite He. eauto.
Qed.

Lemma strippedKind_pointer (ftyp e : rtype) :
  underlying ftyp = PointerTo e -> strippedKind ftyp = Type_Kind e.
Proof.
  intros H. unfold strippedKind, stripPointer, Type_Elem.
  rewrite (underlying_pointer_Kind _ _ H), H. reflexivity.
Qed.

Lemma strippedKind_plain (ftyp : rtype) :
  Type_Kind ftyp <> Pointer -> strippedKind ftyp = Type_Kind ftyp.
Proof.
  intros H. unfold strippedKind, stripPointer.
  now rewrite bool_decide_false.
Qed.

(** One iteration of the loop, when both types have a field at [i]. *)
Lemma checkField_eq (elmTyp1 elmTyp2 : rtype) i f1 f2 :
  fieldsOf elmTyp1 !! i = Some f1 ->
  fieldsOf elmTyp2 !! i = Some f2 ->
  checkField elmTyp1 elmTyp2 i =
  if negb (bool_decide (Type_Kind (Typ f1) = Type_Kind (Typ f2)))
  then Panicked (FieldKindMismatch i)
  else if negb (isValidKind (strippedKind (Typ f1)))
          || negb (isValidKind (strippedKind (Typ f2)))
       then Panicked (UnsupportedFieldKind i)
       else Returned tt.
Proof.
  intros H1 H2. unfold checkField.
  rewrite (Type_Field_struct _ _ i (fieldsOf_lookup_struct _ _ _ H2)), H2.
  rewrite (Type_Field_struct _ _ i (fieldsOf_lookup_struct _ _ _ H1)), H1.
  simpl. destruct (negb _); [reflexivity|].
  destruct (stripPointer_strippedKind (Typ f1)) as (t1 & -> & <-).
  destruct (stripPointer_strippedKind (Typ f2)) as (t2 & -> & <-).
  reflexivity.
Qed.

(** One iteration of the loop beyond the last field of the source. *)
Lemma checkField_out_of_bounds (elmTyp1 elmTyp2 : rtype) fs1 i f2 :
  underlying elmTyp1 = StructOf fs1 ->
  fieldsOf elmTyp2 !! i = Some f2 ->
  length fs1 <= i ->
  checkField elmTyp1 elmTyp2 i =
  Panicked (RuntimeError "reflect: Field index out of bounds").
Proof.
  intros H1 H2 Hi. unfold checkField.
  rewrite (Type_Field_struct _ _ i (fieldsOf_lookup_struct _ _ _ H2)), H2.
  rewrite (Type_Field_struct _ _ i H1).
  rewrite (proj2 (lookup_ge_None fs1 i)) by lia. reflexivity.
Qed.

(** The checks in the order of the source, by the shape of the two types. *)
Lemma validate_cases (ttyp1 ttyp2 : option rtype) :
  validate ttyp1 ttyp2 =
  match ttyp1 with
  | None => Panicked nilDereference
  | Some T1 =>
      match underlying T1 with
      | PointerTo e =>
          match underlying e with
          | StructOf _ =>
              match ttyp2 with
              | None => Panicked nilDereference
              | Some T2 =>
                  match underlying T2 with
                  | StructOf fs2 =>
                      if Type_ConvertibleTo e T2
                      then Panicked RedundantConversion
                      else forRange 0 (length fs2) (checkField e T2)
                  | _ => Panicked InvalidTargetShape
                  end
              end
          | _ => Panicked InvalidSourceShape
          end
      | _ => Panicked InvalidSourceShape
      end
  end.
Proof.
  destruct ttyp1 as [T1|]; [|reflexivity].
  unfold validate. simpl.
  rewrite <- (Type_Kind_underlying T1). unfold Type_Elem.
  destruct (underlying T1) as [k|e| | | | | |] eqn:HT1; simpl;
    try reflexivity; [destruct k; reflexivity | | contradiction (underlying_not_Defined _ _ _ HT1)].
  rewrite <- (Type_Kind_underlying e). unfold Type_NumField.
  destruct (underlying e) as [k| | | | | |fs1|] eqn:He; simpl;
    try reflexivity; [destruct k; reflexivity | | contradiction (underlying_not_Defined _ _ _ He)].
  destruct ttyp2 as [T2|]; [|reflexivity]. simpl.
  rewrite <- (Type_Kind_underlying T2).
  destruct (underlying T2) as [k| | | | | |fs2|] eqn:HT2; simpl;
    try reflexivity; [destruct k; reflexivity | | contradiction (underlying_not_Defined _ _ _ HT2)].
  destruct (Type_ConvertibleTo e T2); [reflexivity|].
  rewrite Nat.ltb_irrefl. reflexivity.
Qed.

(** A run of [ConvertTo]: the checks, then the address, then the read. *)
Lemma ConvertTo_run (T1 T2 : rtype) (t1 : Value) (s : State) :
  ConvertTo T1 T2 t1 s =
  match validate (TypeOf T1 t1) (TypeOf_zero T2) with
  | Panicked p => (Panicked p, s)
  | Returned _ =>
      match Value_UnsafePointer (ValueOf t1) with
      | Panicked p => (Panicked p, s)
      | Returned p => unsafeLoad T2 p s
      end
  end.
Proof.
  unfold ConvertTo, mbind, M_bind, lift.
  destruct (validate _ _); [|reflexivity].
  destruct (Value_UnsafePointer _); reflexivity.
Qed.

End Checks.

(** ** Runs of [ConvertTo] *)

Section Runs.
Import reflect.

Lemma TypeOf_not_interface (T : rtype) (v : Value) :
  Type_Kind T <> Interface -> TypeOf T v = Some T.
Proof. intros H. unfold TypeOf. now rewrite bool_decide_false. Qed.

Lemma TypeOf_zero_not_interface (T : rtype) :
  Type_Kind T <> Interface -> TypeOf_zero T = Some T.
Proof. intros H. unfold TypeOf_zero. now rewrite bool_decide_false. Qed.

Lemma TypeOf_pointer (T e : rtype) (v : Value) :
  underlying T = PointerTo e -> TypeOf T v = Some T.
Proof.
  intros H. apply TypeOf_not_interface.
  rewrite (underlying_pointer_Kind _ _ H). discriminate.
Qed.

Lemma TypeOf_zero_struct (T : rtype) fs :
  underlying T = StructOf fs -> TypeOf_zero T = Some T.
Proof.
  intros H. apply TypeOf_zero_not_interface.
  rewrite (underlying_struct_Kind _ _ H). discriminate.
Qed.

(** The read either yields the leading fields of the object and records the
    address, or panics and leaves the state as it was. *)
Lemma unsafeLoad_cases (T2 : rtype) (p : option addr) (s : State) :
  (exists a fs,
      p = Some a /\ heap s !! a = Some (VStruct fs)
      /\ unsafeLoad T2 p s =
         (Returned (VStruct (take (length (fieldsOf T2)) fs)), afterRead a s))
  \/ (exists q, unsafeLoad T2 p s = (Panicked q, s)).
Proof.
  unfold unsafeLoad. destruct p as [a|]; [|right; eauto].
  destruct (heap s !! a) as [[]|] eqn:Ha; try (right; eauto; fail).
  left. eauto.
Qed.

(** The outcome of the read depends on the heap only. *)
Lemma unsafeLoad_heap (T2 : rtype) (p : option addr) (s s' : State) :
  heap s = heap s' -> (unsafeLoad T2 p s).1 = (unsafeLoad T2 p s').1.
Proof.
  intros H. unfold unsafeLoad. destruct p as [a|]; [|reflexivity].
  rewrite <- H. destruct (heap s !! a) as [[]|]; reflexivity.
Qed.

(** Every run leaves heap, allocator and output as they were. *)
Lemma ConvertTo_frame (T1 T2 : rtype) (t1 : Value) (s : State) :
  let s' := (ConvertTo T1 T2 t1 s).2 in
  heap s' = heap s /\ next s' = next s /\ stdout s' = stdout s.
Proof.
  rewrite ConvertTo_run.
  destruct (validate _ _) as [[]|]; [|now simpl].
  destruct (Value_UnsafePointer _) as [p|]; [|now simpl].
  destruct (unsafeLoad_cases T2 p s) as [(a & fs & _ & _ & ->)|[q ->]];
    now simpl.
Qed.

(** The outcome of a run depends on the heap only. *)
Lemma ConvertTo_outcome_heap (T1 T2 : rtype) (t1 : Value) (s s' : State) :
  heap s = heap s' ->
  (ConvertTo T1 T2 t1 s).1 = (ConvertTo T1 T2 t1 s').1.
Proof.
  intros H. rewrite !ConvertTo_run.
  destruct (validate _ _); [|reflexivity].
  destruct (Value_UnsafePointer _) as [p|]; [|reflexivity].
  now apply unsafeLoad_heap.
Qed.

Lemma checkField_not_TargetTooLarge (elmTyp1 elmTyp2 : rtype) i :
  checkField elmTyp1 elmTyp2 i <> Panicked TargetTooLarge.
Proof.
  unfold checkField, Type_Field.
  destruct (underlying elmTyp2) as [| | | | | |fs2|]; try discriminate.
  destruct (fs2 !! i) as [f2|]; [simpl|discriminate].
  destruct (underlying elmTyp1) as [| | | | | |fs1|]; try discriminate.
  destruct (fs1 !! i) as [f1|]; [simpl|discriminate].
  destruct (negb _); [discriminate|].
  destruct (stripPointer_strippedKind (Typ f1)) as (t1 & -> & _).
  destruct (stripPointer_strippedKind (Typ f2)) as (t2 & -> & _).
  simpl. destruct (_ || _); discriminate.
Qed.

(** The panic of line 85 is never raised: the condition of line 84 compares
    the field count of the source with itself. *)
Lemma validate_not_TargetTooLarge (ttyp1 ttyp2 : option rtype) :
  validate ttyp1 ttyp2 <> Panicked TargetTooLarge.
Proof.
  rewrite validate_cases.
  destruct ttyp1 as [T1|]; [|discriminate].
  destruct (underlying T1) as [|e| | | | | |]; try discriminate.
  destruct (underlying e); try discriminate.
  destruct ttyp2 as [T2|]; [|discriminate].
  destruct (underlying T2) as [| | | | | |fs2|]; try discriminate.
  destruct (Type_ConvertibleTo e T2); [discriminate|].
  intros H. apply forRange_Panicked in H as (i & _ & _ & H).
  now apply checkField_not_TargetTooLarge in H.
Qed.

Lemma ConvertTo_not_TargetTooLarge (T1 T2 : rtype) (t1 : Value) (s : State) :
  (ConvertTo T1 T2 t1 s).1 <> Panicked TargetTooLarge.
Proof.
  rewrite ConvertTo_run.
  destruct (validate _ _) as [[]|p] eqn:Hv.
  - unfold Value_UnsafePointer, unsafeLoad.
    destruct (ValueOf t1) as [| | | |[a|]| |]; try discriminate.
    destruct (heap s !! a) as [[]|]; discriminate.
  - simpl. intros [= ->]. now apply validate_not_TargetTooLarge in Hv.
Qed.

(** A panic of the checks is the outcome of the run, in an unchanged state. *)
Lemma ConvertTo_validate_panic (T1 T2 : rtype) (t1 : Value) (s : State) p :
  validate (TypeOf T1 t1) (TypeOf_zero T2) = Panicked p ->
  ConvertTo T1 T2 t1 s = (Panicked p, s).
Proof. intros H. now rewrite ConvertTo_run, H. Qed.

End Runs.

(** ** What a successful validation establishes *)

Section Validation.
Import reflect.

(** The checks pass exactly when the shapes are right, the types are not
    convertible, the target is no larger than the source, and at every index
    of the target the declared kinds agree and the kinds without the pointer
    level are allowed. *)
Lemma validate_Returned (ttyp1 ttyp2 : option rtype) :
  validate ttyp1 ttyp2 = Returned tt <->
  exists t1 e t2,
    ttyp1 = Some t1 /\ ttyp2 = Some t2 /\ checkedInvariants t1 e t2.
Proof.
  rewrite validate_cases. split.
  - destruct ttyp1 as [t1|]; [|discriminate].
    destruct (underlying t1) as [|e| | | | | |] eqn:Ht1; try discriminate.
    destruct (underlying e) as [| | | | | |fs1|] eqn:He; try discriminate.
    destruct ttyp2 as [t2|]; [|discriminate].
    destruct (underlying t2) as [| | | | | |fs2|] eqn:Ht2; try discriminate.
    destruct (Type_ConvertibleTo e t2) eqn:Hc; [discriminate|].
    rewrite forRange_Returned. intros Hloop.
    exists t1, e, t2. split; [reflexivity|]. split; [reflexivity|].
    assert (length fs2 <= length fs1) as Hsize.
    { destruct (decide (length fs2 <= length fs1)) as [|Hgt]; [assumption|].
      destruct (lookup_lt_is_Some_2 fs2 (length fs1)) as [f2 Hf2]; [lia|].
      specialize (Hloop (length fs1) ltac:(lia)).
      rewrite (checkField_out_of_bounds e t2 fs1 (length fs1) f2) in Hloop;
        [ discriminate
        | assumption | now rewrite (fieldsOf_struct _ _ Ht2) | lia ]. }
    assert (forall i f1 f2,
               fieldsOf e !! i = Some f1 -> fieldsOf t2 !! i = Some f2 ->
               Type_Kind (Typ f1) = Type_Kind (Typ f2)
               /\ isValidKind (strippedKind (Typ f1)) = true
               /\ isValidKind (strippedKind (Typ f2)) = true) as Hfields.
    { intros i f1 f2 H1 H2.
      assert (i < length fs2) as Hi.
      { rewrite (fieldsOf_struct _ _ Ht2) in H2.
        now apply lookup_lt_Some in H2. }
      specialize (Hloop i ltac:(lia)).
      rewrite (checkField_eq _ _ _ _ _ H1 H2) in Hloop.
      case_bool_decide as Hk; simpl in Hloop; [|discriminate].
      destruct (isValidKind (strippedKind (Typ f1)));
        destruct (isValidKind (strippedKind (Typ f2)));
        simpl in Hloop; try discriminate. auto. }
    repeat split.
    + now apply underlying_pointer_Kind with e.
    + unfold Type_Elem. now rewrite Ht1.
    + now apply underlying_struct_Kind with fs1.
    + now apply underlying_struct_Kind with fs2.
    + red. now rewrite (fieldsOf_struct _ _ Ht2), (fieldsOf_struct _ _ He).
    + exact Hc.
    + intros i f1 f2 H1 H2. now apply (Hfields i f1 f2).
    + now apply (Hfields i f1 f2).
    + now apply (Hfields i f1 f2).
  - intros (t1 & e & t2 & -> & -> & Hshape & Hsize & Hred & Hdecl & Hallow).
    destruct Hshape as (Hk1 & Hel & Hke & Hk2).
    destruct (Kind_Pointer_inv _ Hk1) as [e' Ht1].
    unfold Type_Elem in Hel. rewrite Ht1 in Hel. injection Hel as ->.
    destruct (Kind_Struct_inv _ Hke) as [fs1 He].
    destruct (Kind_Struct_inv _ Hk2) as [fs2 Ht2].
    rewrite Ht1, He, Ht2. red in Hred. rewrite Hred.
    red in Hsize.
    rewrite (fieldsOf_struct _ _ Ht2), (fieldsOf_struct _ _ He) in Hsize.
    apply forRange_Returned. intros i Hi.
    destruct (lookup_lt_is_Some_2 fs1 i) as [f1 H1]; [lia|].
    destruct (lookup_lt_is_Some_2 fs2 i) as [f2 H2]; [lia|].
    rewrite <- (fieldsOf_struct _ _ He) in H1.
    rewrite <- (fieldsOf_struct _ _ Ht2) in H2.
    rewrite (checkField_eq _ _ _ _ _ H1 H2).
    rewrite (Hdecl i f1 f2 H1 H2), bool_decide_true by reflexivity.
    destruct (Hallow i f1 f2 H1 H2) as [-> ->]. reflexivity.
Qed.


End Validation.

(** ** Properties of [ConvertTo] *)

Section Properties.
Import reflect.

(** C10.  [ConvertTo] does not change the source: after every run, whether
    it returns or panics, the heap is the heap it started with (so is every
    object in it, the pointee of the source included), and nothing is
    allocated or printed. *)
Theorem ConvertTo_source_unchanged (T1 T2 : rtype) (t1 : Value) (s : State) :
  heap (ConvertTo T1 T2 t1 s).2 = heap s
  /\ (forall a, heap (ConvertTo T1 T2 t1 s).2 !! a = heap s !! a)
  /\ next (ConvertTo T1 T2 t1 s).2 = next s
  /\ stdout (ConvertTo T1 T2 t1 s).2 = stdout s.
Proof.
  destruct (ConvertTo_frame T1 T2 t1 s) as (Hh & Hn & Ho).
  repeat split; try assumption. intros a. now rewrite Hh.
Qed.

(** C9.  [ConvertTo] is deterministic and free of history: in two states
    with the same heap, whatever was read or printed before, the outcome for
    the same types and source is the same; a second call after a first gives
    the outcome of the first; and a panic of the checks, which are a function
    of the two reflected types alone, is the outcome in every state. *)
Theorem ConvertTo_deterministic (T1 T2 : rtype) (t1 : Value) (s s' : State) :
  heap s = heap s' ->
  (ConvertTo T1 T2 t1 s).1 = (ConvertTo T1 T2 t1 s').1
  /\ (ConvertTo T1 T2 t1 (ConvertTo T1 T2 t1 s).2).1 = (ConvertTo T1 T2 t1 s).1
  /\ (forall p, validate (TypeOf T1 t1) (TypeOf_zero T2) = Panicked p ->
        forall s1 s2, (ConvertTo T1 T2 t1 s1).1 = Panicked p
                      /\ (ConvertTo T1 T2 t1 s2).1 = Panicked p).
Proof.
  intros H. split; [now apply ConvertTo_outcome_heap|]. split.
  - apply ConvertTo_outcome_heap. apply ConvertTo_frame.
  - intros p Hp s1 s2. now rewrite !(ConvertTo_validate_panic _ _ _ _ _ Hp).
Qed.

Lemma ConvertTo_deterministic_witness :
  (ConvertTo (PointerTo HasPtrInt8) OnlyPtrInt32 (VPointer (Some 2%N))
     oneObject).1
  = (ConvertTo (PointerTo HasPtrInt8) OnlyPtrInt32 (VPointer (Some 2%N))
       (afterRead 2%N oneObject)).1.
Proof.
  apply (ConvertTo_deterministic (PointerTo HasPtrInt8) OnlyPtrInt32
           (VPointer (Some 2%N)) oneObject (afterRead 2%N oneObject)).
  reflexivity.
Defined.

(** C1.  On the pair that the comment on [ConvertTo] rules out as too large,
    which passes the shape checks and the redundancy check, the run does not
    panic with [TargetTooLarge]: the panic comes from [Type.Field] in the
    third iteration of the loop. *)
Theorem larger_target_panics_in_reflect :
  Type_Kind (PointerTo DocSmall) = Pointer
  /\ Type_Kind DocSmall = Struct
  /\ Type_Kind DocLarge = Struct
  /\ Type_ConvertibleTo DocSmall DocLarge = false
  /\ length (fieldsOf DocSmall) < length (fieldsOf DocLarge)
  /\ forall t1 s,
       ConvertTo (PointerTo DocSmall) DocLarge t1 s =
       (Panicked (RuntimeError "reflect: Field index out of bounds"), s).
Proof.
  repeat split; try reflexivity.
  vm_compute. lia.
Qed.

(** C7.  On a pair that violates both the size invariant and the kind
    invariant at index 0, the panic reported is the one of the field check,
    not the one of the size check that precedes it. *)
Theorem size_violation_reported_as_mismatch :
  length (fieldsOf DocSmall) < length (fieldsOf LargeSwapped)
  /\ forall t1 s,
       ConvertTo (PointerTo DocSmall) LargeSwapped t1 s =
       (Panicked (FieldKindMismatch 0), s).
Proof.
  split.
  - vm_compute. lia.
  - intros t1 s. now apply ConvertTo_validate_panic.
Qed.

(** C6.  When the target declares more fields than the pointee of the source,
    [ConvertTo] never returns: it panics in an unchanged state, never with
    [TargetTooLarge]; and when the shape and redundancy checks pass and every
    field of the source passes its check, the panic is the one of
    [Type.Field] for the first index beyond the fields of the source. *)
Theorem larger_target_never_returns (T1 T2 e : rtype) (t1 : Value) (s : State) :
  Type_Elem T1 = Returned e ->
  length (fieldsOf e) < length (fieldsOf T2) ->
  exists p,
    ConvertTo T1 T2 t1 s = (Panicked p, s)
    /\ p <> TargetTooLarge
    /\ (shapesOk T1 e T2 -> notRedundant e T2 ->
        (forall j, j < length (fieldsOf e) -> checkField e T2 j = Returned tt) ->
        p = RuntimeError "reflect: Field index out of bounds").
Proof.
  intros He Hlen.
  assert (exists fs2, underlying T2 = StructOf fs2) as [fs2 HT2].
  { unfold fieldsOf in Hlen at 2.
    destruct (underlying T2); simpl in Hlen; try lia. eauto. }
  assert (Type_Kind T1 <> Interface) as HnI.
  { intros HI. destruct (Kind_Interface_inv _ HI) as [ms Hms].
    unfold Type_Elem in He. rewrite Hms in He. discriminate. }
  assert (exists p, validate (Some T1) (Some T2) = Panicked p
                    /\ (shapesOk T1 e T2 -> notRedundant e T2 ->
                        (forall j, j < length (fieldsOf e) ->
                                   checkField e T2 j = Returned tt) ->
                        p = RuntimeError "reflect: Field index out of bounds"))
    as (p & Hp & Hoob).
  { rewrite validate_cases, HT2. unfold Type_Elem in He.
    destruct (underlying T1) as [|e'|e'|n e'|k e'| | |] eqn:HT1;
      try discriminate He;
      try (eexists; split; [reflexivity|]; intros (Hk & _) _ _;
           rewrite <- Type_Kind_underlying, HT1 in Hk; discriminate Hk).
    injection He as ->.
    destruct (underlying e) as [| | | | | |fs1|] eqn:Hfs1;
      try (eexists; split; [reflexivity|]; intros (_ & _ & Hk & _) _ _;
           destruct (Kind_Struct_inv _ Hk) as [fs Hfs]; congruence).
    rewrite (fieldsOf_struct _ _ Hfs1), (fieldsOf_struct _ _ HT2) in Hlen.
    destruct (Type_ConvertibleTo e T2) eqn:Hc.
    { eexists; split; [reflexivity|]. intros _ Hn. red in Hn. congruence. }
    destruct (lookup_lt_is_Some_2 fs2 (length fs1) Hlen) as [f2 Hf2].
    assert (checkField e T2 (length fs1) =
            Panicked (RuntimeError "reflect: Field index out of bounds"))
      as Hout.
    { apply (checkField_out_of_bounds e T2 fs1 _ f2); auto.
      now rewrite (fieldsOf_struct _ _ HT2). }
    destruct (forRange 0 (length fs2) (checkField e T2)) as [[]|p] eqn:Hloop.
    - rewrite forRange_Returned in Hloop.
      rewrite Hloop in Hout by lia. discriminate.
    - exists p. split; [reflexivity|]. intros _ _ Hpass.
      rewrite (fieldsOf_struct _ _ Hfs1) in Hpass.
      assert (forRange 0 (length fs2) (checkField e T2) =
              Panicked (RuntimeError "reflect: Field index out of bounds"))
        as Hfirst.
      { apply forRange_first_panic with (i := length fs1); [lia| |exact Hout].
        intros j Hj. apply Hpass. lia. }
      congruence. }
  exists p. split; [|split; [|exact Hoob]].
  - apply ConvertTo_validate_panic.
    rewrite (TypeOf_not_interface _ _ HnI), (TypeOf_zero_struct _ _ HT2).
    exact Hp.
  - intros ->. now apply validate_not_TargetTooLarge in Hp.
Qed.

Lemma larger_target_never_returns_witness :
  exists p,
    ConvertTo (PointerTo DocSmall) DocLarge (VPointer (Some 2%N)) oneObject
    = (Panicked p, oneObject)
    /\ p <> TargetTooLarge
    /\ (shapesOk (PointerTo DocSmall) DocSmall DocLarge ->
        notRedundant DocSmall DocLarge ->
        (forall j, j < length (fieldsOf DocSmall) ->
                   checkField DocSmall DocLarge j = Returned tt) ->
        p = RuntimeError "reflect: Field index out of bounds").
Proof.
  apply (larger_target_never_returns (PointerTo DocSmall) DocLarge DocSmall).
  - reflexivity.
  - vm_compute. lia.
Defined.

(** C5.  When the target has the same underlying struct type as the pointee
    of the source (one is a renamed definition of the other), [ConvertTo]
    panics with [RedundantConversion], whatever else holds of the fields. *)
Theorem renamed_target_is_redundant (T1 T2 e : rtype) fs (t1 : Value)
  (s : State) :
  underlying T1 = PointerTo e ->
  underlying e = StructOf fs ->
  underlying T2 = StructOf fs ->
  ConvertTo T1 T2 t1 s = (Panicked RedundantConversion, s).
Proof.
  intros HT1 He HT2. apply ConvertTo_validate_panic.
  rewrite (TypeOf_pointer _ _ _ HT1), (TypeOf_zero_struct _ _ HT2).
  rewrite validate_cases, HT1, He, HT2.
  now rewrite (ConvertibleTo_same_underlying e T2 fs He HT2).
Qed.

Lemma renamed_target_is_redundant_witness :
  ConvertTo (PointerTo Type1) Renamed (VPointer (Some 2%N)) oneObject
  = (Panicked RedundantConversion, oneObject).
Proof.
  apply (renamed_target_is_redundant (PointerTo Type1) Renamed Type1
           (fieldsOf Type1)); reflexivity.
Defined.

(** C2, as stated, fails: a source field of kind pointer-to-int32 against a
    target field of plain kind int32, both int32 (an allowed kind) once the
    pointer level is removed, panics with [FieldKindMismatch] at index 0. *)
Lemma pointer_against_plain_is_mismatch :
  fieldsOf HasPtrInt32 !! 0
  = Some (fld "a" (PointerTo (Predeclared Int32)))
  /\ fieldsOf HasInt32 !! 0 = Some (fld "x" (Predeclared Int32))
  /\ strippedKind (PointerTo (Predeclared Int32)) = Int32
  /\ strippedKind (Predeclared Int32) = Int32
  /\ isValidKind Int32 = true
  /\ checkField HasPtrInt32 HasInt32 0 = Panicked (FieldKindMismatch 0)
  /\ forall t1 s,
       ConvertTo (PointerTo HasPtrInt32) HasInt32 t1 s =
       (Panicked (FieldKindMismatch 0), s).
Proof. repeat split; reflexivity. Qed.

(** C2, amended.  At an index where both types have a field, the check
    compares the kinds as declared, before any pointer level is removed, and
    panics with [FieldKindMismatch] exactly when they differ; only then is
    one pointer level removed from each side, and the check panics with
    [UnsupportedFieldKind] exactly when one of the resulting kinds is not
    allowed.  So a pointer field against a plain field is a mismatch, and
    two pointer fields pass the comparison whatever their pointees. *)
Theorem field_check_compares_declared_kinds (elmTyp1 elmTyp2 : rtype) i f1 f2 :
  fieldsOf elmTyp1 !! i = Some f1 ->
  fieldsOf elmTyp2 !! i = Some f2 ->
  (checkField elmTyp1 elmTyp2 i = Panicked (FieldKindMismatch i) <->
   Type_Kind (Typ f1) <> Type_Kind (Typ f2))
  /\ (checkField elmTyp1 elmTyp2 i = Panicked (UnsupportedFieldKind i) <->
      Type_Kind (Typ f1) = Type_Kind (Typ f2)
      /\ (isValidKind (strippedKind (Typ f1)) = false
          \/ isValidKind (strippedKind (Typ f2)) = false))
  /\ (checkField elmTyp1 elmTyp2 i = Returned tt <->
      Type_Kind (Typ f1) = Type_Kind (Typ f2)
      /\ isValidKind (strippedKind (Typ f1)) = true
      /\ isValidKind (strippedKind (Typ f2)) = true)
  /\ (Type_Kind (Typ f1) = Pointer -> Type_Kind (Typ f2) <> Pointer ->
      checkField elmTyp1 elmTyp2 i = Panicked (FieldKindMismatch i))
  /\ (Type_Kind (Typ f1) = Pointer -> Type_Kind (Typ f2) = Pointer ->
      checkField elmTyp1 elmTyp2 i <> Panicked (FieldKindMismatch i)).
Proof.
  intros H1 H2. rewrite (checkField_eq _ _ _ _ _ H1 H2).
  case_bool_decide as Hk; simpl.
  - destruct (isValidKind (strippedKind (Typ f1)));
      destruct (isValidKind (strippedKind (Typ f2))); simpl;
      repeat split; try discriminate; try congruence; try tauto;
      intuition (try discriminate; try congruence).
  - repeat split; try discriminate; try congruence; try tauto;
      intuition (try discriminate; try congruence).
Qed.

Lemma field_check_compares_declared_kinds_witness :
  checkField HasPtrInt32 HasInt32 0 = Panicked (FieldKindMismatch 0).
Proof.
  destruct (field_check_compares_declared_kinds HasPtrInt32 HasInt32 0
              (fld "a" (PointerTo (Predeclared Int32)))
              (fld "x" (Predeclared Int32)) eq_refl eq_refl)
    as (_ & _ & _ & Hptr & _).
  apply Hptr; [reflexivity | simpl; discriminate].
Defined.



(** C4.  For a source whose pointee has fields of kinds int8, pointer to
    int32 and string, and a target with fields of kinds int8 and pointer to
    int32, as in [main], [ConvertTo] returns: the result holds the first two
    field values of the source, so its second field is the very reference
    held by the second field of the source, and reading through it yields
    what reading through the source's field yields. *)
Theorem demonstration_succeeds (T1 T2 e : rtype) f1 f2 f3 g1 g2 p2 q2
  (a : addr) (v1 v2 v3 : Value) (s : State) :
  underlying T1 = PointerTo e ->
  fieldsOf e = [f1; f2; f3] ->
  fieldsOf T2 = [g1; g2] ->
  Type_Kind (Typ f1) = Int8 ->
  underlying (Typ f2) = PointerTo p2 -> Type_Kind p2 = Int32 ->
  Type_Kind (Typ f3) = String ->
  Type_Kind (Typ g1) = Int8 ->
  underlying (Typ g2) = PointerTo q2 -> Type_Kind q2 = Int32 ->
  heap s !! a = Some (VStruct [v1; v2; v3]) ->
  ConvertTo T1 T2 (VPointer (Some a)) s
  = (Returned (VStruct [v1; v2]), afterRead a s)
  /\ (field (VStruct [v1; v2]) 1 (afterRead a s)).1 = Returned v2
  /\ (field (VStruct [v1; v2; v3]) 1 s).1 = Returned v2
  /\ (deref v2 (afterRead a s)).1 = (deref v2 s).1.
Proof.
  intros HT1 Hfe HfT Hf1 Hf2 Hp2 Hf3 Hg1 Hg2 Hq2 Ha.
  assert (underlying e = StructOf [f1; f2; f3]) as He.
  { rewrite <- Hfe. apply (fieldsOf_lookup_struct e 0 f1). now rewrite Hfe. }
  assert (underlying T2 = StructOf [g1; g2]) as HT2.
  { rewrite <- HfT. apply (fieldsOf_lookup_struct T2 0 g1). now rewrite HfT. }
  assert (Type_ConvertibleTo e T2 = false) as Hc.
  { destruct (Type_ConvertibleTo e T2) eqn:Hc; [|reflexivity].
    apply ConvertibleTo_length in Hc;
      [|now apply underlying_struct_Kind with [g1; g2]].
    rewrite Hfe, HfT in Hc. discriminate. }
  assert (validate (Some T1) (Some T2) = Returned tt) as Hv.
  { rewrite validate_cases, HT1, He, HT2, Hc.
    apply forRange_Returned. intros i Hi. simpl in Hi.
    assert (i = 0 \/ i = 1) as [-> | ->] by lia.
    - rewrite (checkField_eq e T2 0 f1 g1)
        by (rewrite ?Hfe, ?HfT; reflexivity).
      rewrite Hf1, Hg1, !strippedKind_plain
        by (rewrite ?Hf1, ?Hg1; discriminate).
      rewrite Hf1, Hg1. reflexivity.
    - rewrite (checkField_eq e T2 1 f2 g2)
        by (rewrite ?Hfe, ?HfT; reflexivity).
      rewrite (underlying_pointer_Kind _ _ Hf2),
        (underlying_pointer_Kind _ _ Hg2).
      rewrite (strippedKind_pointer _ _ Hf2), (strippedKind_pointer _ _ Hg2).
      rewrite Hp2, Hq2. reflexivity. }
  split; [|split; [reflexivity|split; [reflexivity|]]].
  - rewrite ConvertTo_run.
    rewrite (TypeOf_pointer _ _ _ HT1), (TypeOf_zero_struct _ _ HT2), Hv.
    simpl. unfold unsafeLoad. rewrite Ha, HfT. reflexivity.
  - unfold deref. destruct v2 as [| | | |[b|]| |]; try reflexivity.
    simpl. destruct (heap s !! b); reflexivity.
Qed.

Lemma demonstration_succeeds_witness :
  ConvertTo (PointerTo Type1) Type2 (VPointer (Some 2%N)) beforeCall
  = (Returned (VStruct [VInt 1; VPointer (Some 1%N)]), afterRead 2%N beforeCall)
  /\ (deref (VPointer (Some 1%N)) (afterRead 2%N beforeCall)).1
     = Returned (VInt 2).
Proof.
  destruct (demonstration_succeeds (PointerTo Type1) Type2 Type1
              (fld "t1" (Predeclared Int8))
              (fld "t2" (PointerTo (Predeclared Int32)))
              (fld "t3" (Predeclared String))
              (fld "tt1" (Predeclared Int8))
              (fld "tt2" (PointerTo (Predeclared Int32)))
              (Predeclared Int32) (Predeclared Int32)
              2%N (VInt 1) (VPointer (Some 1%N)) (VString "test") beforeCall)
    as (Hrun & _ & _ & Hderef); try reflexivity.
  split; [exact Hrun|]. rewrite Hderef. reflexivity.
Defined.

(** The run of [main]: it returns and prints 2 twice. *)
Lemma main_prints_two_twice :
  (main initial).1 = Returned tt
  /\ stdout (main initial).2 = [VInt 2; VInt 2]
  /\ unsafe_reads (main initial).2 = [2%N].
Proof. repeat split; reflexivity. Qed.

(** C8, as stated, fails: for a source field of kind pointer to int8 against
    a target field of kind pointer to int32 the run returns a value, although
    the fourth invariant in the words of the specification does not hold. *)
Lemma pointee_kinds_not_compared :
  ~ allOrNothingAsSpecified (PointerTo HasPtrInt8) OnlyPtrInt32
      (VPointer (Some 2%N)) oneObject.
Proof.
  intros [(ttyp1 & elmTyp1 & v & s' & HT & Hinv & _) | [p Hp]].
  - injection HT as <-.
    destruct Hinv as ((_ & Hel & _) & _ & _ & Hstrip & _).
    injection Hel as <-.
    specialize (Hstrip 0 (fld "a" (PointerTo (Predeclared Int8)))
                  (fld "x" (PointerTo (Predeclared Int32)))
                  eq_refl eq_refl).
    discriminate Hstrip.
  - discriminate Hp.
Qed.

(** C8, amended.  Every run either returns, and then the invariants hold in
    the form the checks establish them (the fourth on the kinds as declared,
    so that two pointer fields may differ in the kind of their pointees), the
    value returned is made of the leading fields of the source object and
    the one unsafe read is all that happened; or it panics in the state it
    started in, before anything is read through the unsafe pointer. *)
Theorem all_or_nothing (T1 T2 : rtype) (t1 : Value) (s : State) :
  (exists ttyp1 elmTyp1 a fs,
      TypeOf T1 t1 = Some ttyp1
      /\ checkedInvariants ttyp1 elmTyp1 T2
      /\ ValueOf t1 = VPointer (Some a)
      /\ heap s !! a = Some (VStruct fs)
      /\ ConvertTo T1 T2 t1 s =
         (Returned (VStruct (take (length (fieldsOf T2)) fs)), afterRead a s))
  \/ (exists p, ConvertTo T1 T2 t1 s = (Panicked p, s)).
Proof.
  rewrite ConvertTo_run.
  destruct (validate _ _) as [[]|p] eqn:Hv; [|right; eauto].
  apply validate_Returned in Hv as (ty1 & e & ty2 & HT1 & HT2 & Hinv).
  assert (ty2 = T2) as ->.
  { unfold TypeOf_zero in HT2.
    case_bool_decide; congruence. }
  destruct (Value_UnsafePointer (ValueOf t1)) as [q|r] eqn:Hq;
    [|right; eauto].
  destruct (unsafeLoad_cases T2 q s) as [(a & fs & -> & Ha & ->)|[r ->]];
    [|right; eauto].
  assert (ValueOf t1 = VPointer (Some a)) as Hval.
  { unfold Value_UnsafePointer in Hq. revert Hq.
    destruct (ValueOf t1); intros Hq; try discriminate Hq.
    now injection Hq as ->. }
  left. exists ty1, e, a, fs.
  split; [exact HT1|]. split; [exact Hinv|]. split; [exact Hval|].
  split; [exact Ha|reflexivity].
Qed.

End Properties.

(** ** Further properties of [ConvertTo] and of [main] *)

Section Further.
Import reflect.

Lemma forRange_ext (body body' : nat -> result unit) n from :
  (forall i, from <= i < from + n -> body i = body' i) ->
  forRange from n body = forRange from n body'.
Proof.
  revert from. induction n as [|n IH]; intros from H; simpl; [reflexivity|].
  rewrite (H from) by lia. destruct (body' from); simpl; [|reflexivity].
  apply IH. intros i Hi. apply H. lia.
Qed.

(** The panics of one iteration over two struct types. *)
Lemma checkField_panics (elmTyp1 elmTyp2 : rtype) fs1 fs2 i p :
  underlying elmTyp1 = StructOf fs1 ->
  underlying elmTyp2 = StructOf fs2 ->
  checkField elmTyp1 elmTyp2 i = Panicked p ->
  (i < length fs2 /\ length fs1 <= i
   /\ p = RuntimeError "reflect: Field index out of bounds")
  \/ (exists f1 f2,
         fs1 !! i = Some f1 /\ fs2 !! i = Some f2
         /\ ((p = FieldKindMismatch i
              /\ Type_Kind (Typ f1) <> Type_Kind (Typ f2))
             \/ (p = UnsupportedFieldKind i
                 /\ Type_Kind (Typ f1) = Type_Kind (Typ f2))))
  \/ (length fs2 <= i
      /\ p = RuntimeError "reflect: Field index out of bounds").
Proof.
  intros H1 H2.
  destruct (fs2 !! i) as [f2|] eqn:Hf2.
  - destruct (fs1 !! i) as [f1|] eqn:Hf1.
    + rewrite (checkField_eq elmTyp1 elmTyp2 i f1 f2)
        by (rewrite ?(fieldsOf_struct _ _ H1), ?(fieldsOf_struct _ _ H2);
            assumption).
      case_bool_decide as Hk; simpl.
      * destruct (_ || _); [|discriminate]. intros [= <-].
        right. left. exists f1, f2. auto.
      * intros [= <-]. right. left. exists f1, f2. auto.
    + apply lookup_ge_None_1 in Hf1 as Hge.
      rewrite (checkField_out_of_bounds elmTyp1 elmTyp2 fs1 i f2)
        by (rewrite ?(fieldsOf_struct _ _ H2); assumption).
      intros [= <-]. left. apply lookup_lt_Some in Hf2. auto.
  - unfold checkField. rewrite (Type_Field_struct _ _ i H2), Hf2. simpl.
    intros [= <-]. right. right. apply lookup_ge_None_1 in Hf2. auto.
Qed.

(** Where a panic of a run comes from: the checks, or the read. *)
Lemma ConvertTo_panic_origin (T1 T2 : rtype) (t1 : Value) (s : State) p :
  (ConvertTo T1 T2 t1 s).1 = Panicked p ->
  validate (TypeOf T1 t1) (TypeOf_zero T2) = Panicked p
  \/ exists msg, p = RuntimeError msg
                 /\ msg <> "T2 must be no larger than T1".
Proof.
  rewrite ConvertTo_run.
  destruct (validate _ _) as [[]|q]; [|simpl; intros [= <-]; now left].
  unfold Value_UnsafePointer, unsafeLoad.
  destruct (ValueOf t1) as [| | | |[a|]| |]; simpl;
    try (intros [= <-]; right; eexists; split; [reflexivity|discriminate]).
  destruct (heap s !! a) as [[]|]; simpl;
    try (intros [= <-]; right; eexists; split; [reflexivity|discriminate]).
  discriminate.
Qed.

Lemma checkedInvariants_of_validate (T1 e T2 : rtype) :
  Type_Elem T1 = Returned e ->
  validate (Some T1) (Some T2) = Returned tt ->
  checkedInvariants T1 e T2.
Proof.
  intros He Hv.
  apply validate_Returned in Hv as (t1 & e' & t2 & [= <-] & [= <-] & H).
  assert (e' = e) as ->; [|exact H].
  destruct H as ((_ & He' & _) & _). congruence.
Qed.

(** When the invariants hold, a run is the read through the source. *)
Lemma ConvertTo_checked (T1 e T2 : rtype) (t1 : Value) (s : State) :
  checkedInvariants T1 e T2 ->
  ConvertTo T1 T2 t1 s =
  match Value_UnsafePointer (ValueOf t1) with
  | Panicked p => (Panicked p, s)
  | Returned p => unsafeLoad T2 p s
  end.
Proof.
  intros H. rewrite ConvertTo_run.
  assert (validate (Some T1) (Some T2) = Returned tt) as Hv
    by (apply validate_Returned; eauto 6).
  destruct H as ((Hk1 & _ & _ & Hk2) & _).
  rewrite TypeOf_not_interface, TypeOf_zero_not_interface, Hv
    by (rewrite ?Hk1, ?Hk2; discriminate).
  reflexivity.
Qed.

(** X1.  A source type that is not a pointer to a struct is rejected with
    "T1 must be a pointer to struct", whatever the target type and the
    source value are: the check comes first. *)
Theorem not_pointer_to_struct_rejected (T1 T2 : rtype) (t1 : Value)
  (s : State) :
  Type_Kind T1 <> Interface ->
  Type_Kind T1 <> Pointer
  \/ (exists e, Type_Elem T1 = Returned e /\ Type_Kind e <> Struct) ->
  ConvertTo T1 T2 t1 s = (Panicked InvalidSourceShape, s).
Proof.
  intros HnI Hbad. apply ConvertTo_validate_panic.
  rewrite (TypeOf_not_interface _ _ HnI), validate_cases.
  destruct (underlying T1) as [|e'| | | | | |] eqn:HT1; try reflexivity.
  destruct Hbad as [Hk|(e & He & Hk)].
  - now rewrite (underlying_pointer_Kind _ _ HT1) in Hk.
  - unfold Type_Elem in He. rewrite HT1 in He. injection He as ->.
    destruct (underlying e) as [| | | | | |fs|] eqn:Hfs; try reflexivity.
    now rewrite (underlying_struct_Kind _ _ Hfs) in Hk.
Qed.

Lemma not_pointer_to_struct_rejected_witness :
  ConvertTo Type1 Type2 (VStruct []) oneObject
  = (Panicked InvalidSourceShape, oneObject)
  /\ ConvertTo (PointerTo (Predeclared Int32)) Type2 (VPointer (Some 1%N))
       oneObject
     = (Panicked InvalidSourceShape, oneObject).
Proof.
  split.
  - apply (not_pointer_to_struct_rejected Type1 Type2);
      [simpl; discriminate | left; simpl; discriminate].
  - apply (not_pointer_to_struct_rejected (PointerTo (Predeclared Int32)));
      [simpl; discriminate|].
    right. exists (Predeclared Int32). split; [reflexivity|simpl; discriminate].
Defined.

(** X2.  With a pointer to a struct as source, a target type that is neither
    a struct nor an interface type (a pointer to a struct, say) is rejected
    with "T2 must be a struct". *)
Theorem not_struct_target_rejected (T1 T2 e : rtype) fs (t1 : Value)
  (s : State) :
  underlying T1 = PointerTo e ->
  underlying e = StructOf fs ->
  Type_Kind T2 <> Struct ->
  Type_Kind T2 <> Interface ->
  ConvertTo T1 T2 t1 s = (Panicked InvalidTargetShape, s).
Proof.
  intros HT1 He Hk HnI. apply ConvertTo_validate_panic.
  rewrite (TypeOf_pointer _ _ _ HT1), (TypeOf_zero_not_interface _ HnI).
  rewrite validate_cases, HT1, He.
  destruct (underlying T2) as [| | | | | |fs2|] eqn:HT2; try reflexivity.
  now rewrite (underlying_struct_Kind _ _ HT2) in Hk.
Qed.

Lemma not_struct_target_rejected_witness :
  ConvertTo (PointerTo Type1) (PointerTo Type2) (VPointer (Some 2%N))
    beforeCall
  = (Panicked InvalidTargetShape, beforeCall).
Proof.
  apply (not_struct_target_rejected (PointerTo Type1) (PointerTo Type2)
           Type1 (fieldsOf Type1));
    try reflexivity; simpl; discriminate.
Defined.

(** X3.  With a pointer to a struct as source, a target of interface type
    does not reach the panic "T2 must be a struct": [reflect.TypeOf] of its
    zero value is nil, and the call of [Kind] on it is a nil dereference. *)
Theorem interface_target_nil_dereference (T1 T2 e : rtype) fs (t1 : Value)
  (s : State) :
  underlying T1 = PointerTo e ->
  underlying e = StructOf fs ->
  Type_Kind T2 = Interface ->
  ConvertTo T1 T2 t1 s = (Panicked nilDereference, s).
Proof.
  intros HT1 He Hk. apply ConvertTo_validate_panic.
  rewrite (TypeOf_pointer _ _ _ HT1). unfold TypeOf_zero.
  rewrite bool_decide_true by exact Hk.
  now rewrite validate_cases, HT1, He.
Qed.

Lemma interface_target_nil_dereference_witness :
  ConvertTo (PointerTo Type1) (InterfaceOf []) (VPointer (Some 2%N))
    beforeCall
  = (Panicked nilDereference, beforeCall).
Proof.
  apply (interface_target_nil_dereference (PointerTo Type1) (InterfaceOf [])
           Type1 (fieldsOf Type1)); reflexivity.
Defined.

(** X4.  A nil source pointer passes every check, which look at the types
    only, and then panics with a nil dereference in the read; nothing has
    been read. *)
Theorem nil_source_panics_after_checks (T1 T2 e : rtype) (s : State) :
  checkedInvariants T1 e T2 ->
  validate (TypeOf T1 (VPointer None)) (TypeOf_zero T2) = Returned tt
  /\ ConvertTo T1 T2 (VPointer None) s = (Panicked nilDereference, s).
Proof.
  intros H. split.
  - destruct H as ((Hk1 & Hs) & Hr).
    rewrite TypeOf_not_interface, TypeOf_zero_not_interface
      by (rewrite ?Hk1, ?(proj2 (proj2 Hs)); discriminate).
    apply validate_Returned. exists T1, e, T2.
    split; [reflexivity|]. split; [reflexivity|]. now split.
  - now rewrite (ConvertTo_checked _ _ _ _ _ H).
Qed.

Lemma nil_source_panics_after_checks_witness :
  ConvertTo (PointerTo Type1) Type2 (VPointer None) beforeCall
  = (Panicked nilDereference, beforeCall).
Proof.
  apply (nil_source_panics_after_checks (PointerTo Type1) Type2 Type1).
  apply checkedInvariants_of_validate; reflexivity.
Defined.

(** X5.  The checked invariants are sufficient: when they hold and the
    source points to a struct object, [ConvertTo] returns the leading fields
    of that object, as many as the target declares, after one unsafe read. *)
Theorem invariants_suffice (T1 T2 e : rtype) (a : addr) fs (s : State) :
  checkedInvariants T1 e T2 ->
  heap s !! a = Some (VStruct fs) ->
  ConvertTo T1 T2 (VPointer (Some a)) s
  = (Returned (VStruct (take (length (fieldsOf T2)) fs)), afterRead a s).
Proof.
  intros H Ha. rewrite (ConvertTo_checked _ _ _ _ _ H). simpl.
  unfold unsafeLoad. now rewrite Ha.
Qed.

Lemma invariants_suffice_witness :
  ConvertTo (PointerTo HasPtrInt8) OnlyPtrInt32 (VPointer (Some 2%N)) oneObject
  = (Returned (VStruct [VPointer (Some 1%N)]), afterRead 2%N oneObject).
Proof.
  apply (invariants_suffice (PointerTo HasPtrInt8) OnlyPtrInt32 HasPtrInt8
           2%N [VPointer (Some 1%N); VBool true] oneObject).
  - apply checkedInvariants_of_validate; reflexivity.
  - reflexivity.
Defined.

(** One iteration looks at the types of the two fields at [i] only. *)
Lemma checkField_types (e e' T2 T2' : rtype) fs1 fs1' fs2 fs2' i :
  underlying e = StructOf fs1 -> underlying e' = StructOf fs1' ->
  underlying T2 = StructOf fs2 -> underlying T2' = StructOf fs2' ->
  Typ <$> (fs1 !! i) = Typ <$> (fs1' !! i) ->
  Typ <$> (fs2 !! i) = Typ <$> (fs2' !! i) ->
  checkField e T2 i = checkField e' T2' i.
Proof.
  intros He He' HT2 HT2' H1 H2. unfold checkField.
  rewrite (Type_Field_struct _ _ i He), (Type_Field_struct _ _ i He'),
    (Type_Field_struct _ _ i HT2), (Type_Field_struct _ _ i HT2').
  destruct (fs2 !! i) as [f2|], (fs2' !! i) as [f2'|]; simpl in *;
    try discriminate; [|reflexivity].
  destruct (fs1 !! i) as [f1|], (fs1' !! i) as [f1'|]; simpl in *;
    try discriminate; [|reflexivity].
  injection H1 as ->. injection H2 as ->. reflexivity.
Qed.

(** X6.  The checks and the read are positional and see only the types of
    the fields of the target and of as many leading fields of the source:
    two source/target pairs that agree on these (and pass the redundancy
    check) behave alike, whatever the names of the fields and whatever the
    further fields of the source. *)
Theorem checks_see_leading_types_only (T1 T1' T2 T2' e e' : rtype)
  fs1 fs1' fs2 fs2' (t1 : Value) (s : State) :
  underlying T1 = PointerTo e -> underlying T1' = PointerTo e' ->
  underlying e = StructOf fs1 -> underlying e' = StructOf fs1' ->
  underlying T2 = StructOf fs2 -> underlying T2' = StructOf fs2' ->
  Typ <$> fs2 = Typ <$> fs2' ->
  Typ <$> take (length fs2) fs1 = Typ <$> take (length fs2) fs1' ->
  Type_ConvertibleTo e T2 = false -> Type_ConvertibleTo e' T2' = false ->
  ConvertTo T1 T2 t1 s = ConvertTo T1' T2' t1 s.
Proof.
  intros HT1 HT1' He He' HT2 HT2' Hfs2 Htake Hc Hc'.
  assert (length fs2 = length fs2') as Hlen.
  { apply (f_equal length) in Hfs2. now rewrite !length_fmap in Hfs2. }
  assert (validate (Some T1) (Some T2) = validate (Some T1') (Some T2'))
    as Hv.
  { rewrite !validate_cases, HT1, HT1', He, He', HT2, HT2', Hc, Hc', <- Hlen.
    apply forRange_ext. intros i Hi.
    apply checkField_types with fs1 fs1' fs2 fs2'; try assumption.
    - apply (f_equal (fun l => l !! i)) in Htake.
      now rewrite !list_lookup_fmap, !lookup_take_lt in Htake by lia.
    - apply (f_equal (fun l => l !! i)) in Hfs2.
      now rewrite !list_lookup_fmap in Hfs2. }
  rewrite !ConvertTo_run.
  rewrite (TypeOf_pointer _ _ _ HT1), (TypeOf_pointer _ _ _ HT1').
  rewrite (TypeOf_zero_struct _ _ HT2), (TypeOf_zero_struct _ _ HT2'), Hv.
  destruct (validate (Some T1') (Some T2')); [|reflexivity].
  destruct (Value_UnsafePointer _) as [p|]; [|reflexivity].
  unfold unsafeLoad.
  now rewrite (fieldsOf_struct _ _ HT2), (fieldsOf_struct _ _ HT2'), Hlen.
Qed.

Lemma checks_see_leading_types_only_witness :
  ConvertTo (PointerTo Type1) Type2 (VPointer (Some 2%N)) beforeCall
  = ConvertTo (PointerTo Type1Wide) Type2Other (VPointer (Some 2%N))
      beforeCall.
Proof.
  apply (checks_see_leading_types_only (PointerTo Type1)
           (PointerTo Type1Wide) Type2 Type2Other Type1 Type1Wide
           (fieldsOf Type1) (fieldsOf Type1Wide)
           (fieldsOf Type2) (fieldsOf Type2Other)); reflexivity.
Defined.

(** X7.  Whenever [ConvertTo] returns, the source is a non-nil pointer to a
    struct object, that object has been read once, and each field of the
    result below the target's field count is the field of the source object
    at the same position: a pointer field holds the same address, and what
    it points to is as it was. *)
Theorem converted_fields_are_source_fields (T1 T2 : rtype) (t1 v : Value)
  (s s' : State) :
  ConvertTo T1 T2 t1 s = (Returned v, s') ->
  exists a fs,
    ValueOf t1 = VPointer (Some a)
    /\ heap s !! a = Some (VStruct fs)
    /\ s' = afterRead a s
    /\ (forall i, i < length (fieldsOf T2) ->
                  (field v i s').1 = (field (VStruct fs) i s).1)
    /\ (forall x, (deref x s').1 = (deref x s).1).
Proof.
  rewrite ConvertTo_run.
  destruct (validate _ _) as [[]|]; [|discriminate].
  destruct (Value_UnsafePointer (ValueOf t1)) as [q|] eqn:Hq; [|discriminate].
  assert (ValueOf t1 = VPointer q) as Hval.
  { unfold Value_UnsafePointer in Hq. revert Hq.
    destruct (ValueOf t1); intros Hq; try discriminate Hq.
    now injection Hq as ->. }
  destruct (unsafeLoad_cases T2 q s) as [(a & fs & -> & Ha & ->)|[r ->]];
    [|discriminate].
  intros [= <- <-]. exists a, fs.
  split; [exact Hval|]. split; [exact Ha|]. split; [reflexivity|]. split.
  - intros i Hi. unfold field, lift. simpl.
    now rewrite lookup_take_lt by exact Hi.
  - intros x. unfold deref. simpl.
    destruct x as [| | | |[b|]| |]; try reflexivity.
    destruct (heap s !! b); reflexivity.
Qed.

Lemma converted_fields_are_source_fields_witness :
  exists a fs,
    ValueOf (VPointer (Some 2%N)) = VPointer (Some a)
    /\ heap beforeCall !! a = Some (VStruct fs)
    /\ afterRead 2%N beforeCall = afterRead a beforeCall
    /\ (forall i, i < length (fieldsOf Type2) ->
                  (field (VStruct [VInt 1; VPointer (Some 1%N)]) i
                     (afterRead 2%N beforeCall)).1
                  = (field (VStruct fs) i beforeCall).1)
    /\ (forall x, (deref x (afterRead 2%N beforeCall)).1
                  = (deref x beforeCall).1).
Proof.
  apply (converted_fields_are_source_fields (PointerTo Type1) Type2).
  reflexivity.
Defined.

(** X8.  A target without fields: no field is checked.  Against a source
    struct with at least one field the conversion returns the empty struct,
    whatever the kinds of the source's fields; against a source struct
    without fields the two types are convertible and the call panics with
    [RedundantConversion]. *)
Theorem empty_target (T1 T2 e : rtype) fs1 (a : addr) vs (s : State) :
  underlying T1 = PointerTo e ->
  underlying e = StructOf fs1 ->
  underlying T2 = StructOf [] ->
  heap s !! a = Some (VStruct vs) ->
  ConvertTo T1 T2 (VPointer (Some a)) s =
  match fs1 with
  | [] => (Panicked RedundantConversion, s)
  | _ :: _ => (Returned (VStruct []), afterRead a s)
  end.
Proof.
  intros HT1 He HT2 Ha. rewrite ConvertTo_run.
  rewrite (TypeOf_pointer _ _ _ HT1), (TypeOf_zero_struct _ _ HT2).
  rewrite validate_cases, HT1, He, HT2.
  destruct fs1 as [|f fs1].
  - now rewrite (ConvertibleTo_same_underlying e T2 [] He HT2).
  - destruct (Type_ConvertibleTo e T2) eqn:Hc.
    + apply ConvertibleTo_length in Hc;
        [|now apply underlying_struct_Kind with []].
      rewrite (fieldsOf_struct _ _ He), (fieldsOf_struct _ _ HT2) in Hc.
      discriminate.
    + simpl. unfold unsafeLoad.
      now rewrite Ha, (fieldsOf_struct _ _ HT2).
Qed.

Lemma empty_target_witness :
  ConvertTo (PointerTo Type1) Empty (VPointer (Some 2%N)) beforeCall
  = (Returned (VStruct []), afterRead 2%N beforeCall).
Proof.
  apply (empty_target (PointerTo Type1) Empty Type1 (fieldsOf Type1) 2%N
           [VInt 1; VPointer (Some 1%N); VString "test"] beforeCall);
    reflexivity.
Defined.

(** X9.  A field of a kind outside [validKinds] (a string, a nested struct,
    a slice, a pointer to a pointer, ...) at an index that both types have
    makes every run panic, on whichever side it is: the conversion never
    returns a value over such a field. *)
Theorem unsupported_field_never_returns (T1 T2 e : rtype) (t1 : Value)
  (s : State) i f1 f2 :
  Type_Elem T1 = Returned e ->
  fieldsOf e !! i = Some f1 ->
  fieldsOf T2 !! i = Some f2 ->
  isValidKind (strippedKind (Typ f1)) = false
  \/ isValidKind (strippedKind (Typ f2)) = false ->
  exists p, ConvertTo T1 T2 t1 s = (Panicked p, s).
Proof.
  intros He H1 H2 Hbad. rewrite ConvertTo_run.
  assert (Type_Kind T1 <> Interface) as HnI.
  { intros HI. destruct (Kind_Interface_inv _ HI) as [ms Hms].
    unfold Type_Elem in He. rewrite Hms in He. discriminate. }
  rewrite (TypeOf_not_interface _ _ HnI).
  rewrite (TypeOf_zero_struct _ _ (fieldsOf_lookup_struct _ _ _ H2)).
  destruct (validate _ _) as [[]|p] eqn:Hv; [|eauto].
  apply (checkedInvariants_of_validate _ _ _ He) in Hv.
  destruct Hv as (_ & _ & _ & _ & Hallow).
  destruct (Hallow i f1 f2 H1 H2) as [Ha1 Ha2].
  destruct Hbad; congruence.
Qed.

Lemma unsupported_field_never_returns_witness :
  exists p,
    ConvertTo (PointerTo Type1) Type1Copy (VPointer (Some 2%N)) beforeCall
    = (Panicked p, beforeCall).
Proof.
  apply (unsupported_field_never_returns (PointerTo Type1) Type1Copy Type1
           (VPointer (Some 2%N)) beforeCall 2
           (fld "t3" (Predeclared String)) (fld "z" (Predeclared String)));
    try reflexivity.
  left. reflexivity.
Defined.

(** The panics of the checks on two reflected types. *)
Lemma validate_panics (ttyp1 ttyp2 : option rtype) p :
  validate ttyp1 ttyp2 = Panicked p ->
  p = nilDereference \/ p = InvalidSourceShape \/ p = InvalidTargetShape
  \/ (p = RedundantConversion
      /\ exists t1 e t2,
           ttyp1 = Some t1 /\ ttyp2 = Some t2 /\ shapesOk t1 e t2
           /\ Type_ConvertibleTo e t2 = true)
  \/ (exists t1 e t2 i,
         ttyp1 = Some t1 /\ ttyp2 = Some t2 /\ shapesOk t1 e t2
         /\ notRedundant e t2
         /\ (forall j, j < i -> checkField e t2 j = Returned tt)
         /\ checkField e t2 i = Panicked p
         /\ i < length (fieldsOf t2)).
Proof.
  rewrite validate_cases.
  destruct ttyp1 as [t1|]; [|intros [= <-]; auto].
  destruct (underlying t1) as [|e| | | | | |] eqn:Ht1;
    try solve [intros [= <-]; auto].
  destruct (underlying e) as [| | | | | |fs1|] eqn:He;
    try solve [intros [= <-]; auto].
  destruct ttyp2 as [t2|]; [|intros [= <-]; auto].
  destruct (underlying t2) as [| | | | | |fs2|] eqn:Ht2;
    try solve [intros [= <-]; auto].
  assert (shapesOk t1 e t2) as Hshape.
  { repeat split.
    - now apply underlying_pointer_Kind with e.
    - unfold Type_Elem. now rewrite Ht1.
    - now apply underlying_struct_Kind with fs1.
    - now apply underlying_struct_Kind with fs2. }
  destruct (Type_ConvertibleTo e t2) eqn:Hc.
  - intros [= <-]. do 3 right. left. split; [reflexivity|].
    exists t1, e, t2. auto.
  - intros Hloop. apply forRange_Panicked in Hloop as (i & Hi & Hprev & Hp).
    do 4 right. exists t1, e, t2, i.
    repeat (split; [first [reflexivity | assumption]|]).
    split; [intros j Hj; apply Hprev; lia|]. split; [exact Hp|].
    rewrite (fieldsOf_struct _ _ Ht2). lia.
Qed.

Lemma TypeOf_zero_Some (T2 t2 : rtype) : TypeOf_zero T2 = Some t2 -> t2 = T2.
Proof. unfold TypeOf_zero. case_bool_decide; congruence. Qed.

(** X10.  A panic of the field checks names the first failing index: when a
    run panics with [FieldKindMismatch] or [UnsupportedFieldKind] at [i],
    the shape and redundancy checks have passed, both types have a field at
    [i], every earlier index has passed its check, and the panic is the
    mismatch exactly when the declared kinds of the two fields differ. *)
Theorem field_panic_is_first_failure (T1 T2 : rtype) (t1 : Value) (s : State)
  p i :
  (ConvertTo T1 T2 t1 s).1 = Panicked p ->
  p = FieldKindMismatch i \/ p = UnsupportedFieldKind i ->
  exists ttyp1 e f1 f2,
    TypeOf T1 t1 = Some ttyp1
    /\ shapesOk ttyp1 e T2
    /\ notRedundant e T2
    /\ fieldsOf e !! i = Some f1
    /\ fieldsOf T2 !! i = Some f2
    /\ (forall j, j < i -> checkField e T2 j = Returned tt)
    /\ (p = FieldKindMismatch i <->
        Type_Kind (Typ f1) <> Type_Kind (Typ f2)).
Proof.
  intros Hrun Hp.
  apply ConvertTo_panic_origin in Hrun as [Hv|(msg & -> & _)];
    [|destruct Hp; discriminate].
  apply validate_panics in Hv
    as [->|[->|[->|[[-> _]|(ty1 & e & t2 & j & HT1 & HT2 & Hs & Hr & Hprev
                             & Hcf & Hj)]]]];
    try (destruct Hp; discriminate).
  apply TypeOf_zero_Some in HT2 as ->.
  destruct Hs as (Hk1 & Hel & Hke & Hk2).
  destruct (Kind_Struct_inv _ Hke) as [fs1 He].
  destruct (Kind_Struct_inv _ Hk2) as [fs2 Hfs2].
  destruct (checkField_panics _ _ _ _ _ _ He Hfs2 Hcf)
    as [(_ & _ & ->)|[(f1 & f2 & H1 & H2 & Hcase)|(_ & ->)]];
    try (destruct Hp; discriminate).
  assert (j = i) as ->.
  { destruct Hcase as [[-> _]|[-> _]]; destruct Hp as [[=]|[=]]; auto. }
  exists ty1, e, f1, f2.
  rewrite (fieldsOf_struct _ _ He), (fieldsOf_struct _ _ Hfs2).
  repeat (split; [first [assumption | now repeat split]|]).
  destruct Hcase as [[-> Hne]|[-> Heq]]; split; auto; try discriminate.
  intros Hne. contradiction.
Qed.

Lemma field_panic_is_first_failure_witness :
  exists ttyp1 e f1 f2,
    TypeOf (PointerTo DocSmall) (VPointer (Some 2%N)) = Some ttyp1
    /\ shapesOk ttyp1 e LargeSwapped
    /\ notRedundant e LargeSwapped
    /\ fieldsOf e !! 0 = Some f1
    /\ fieldsOf LargeSwapped !! 0 = Some f2
    /\ (forall j, j < 0 -> checkField e LargeSwapped j = Returned tt)
    /\ (FieldKindMismatch 0 = FieldKindMismatch 0 <->
        Type_Kind (Typ f1) <> Type_Kind (Typ f2)).
Proof.
  apply (field_panic_is_first_failure (PointerTo DocSmall) LargeSwapped
           (VPointer (Some 2%N)) oneObject (FieldKindMismatch 0) 0).
  - reflexivity.
  - left. reflexivity.
Defined.

(** Identical field lists agree on names and kinds, index by index. *)
Lemma identicalFields_lookup fs fs' :
  identicalFields fs fs' = true ->
  forall i f f', fs !! i = Some f -> fs' !! i = Some f' ->
                 Name f = Name f' /\ Type_Kind (Typ f) = Type_Kind (Typ f').
Proof.
  revert fs'. induction fs as [|g fs IH]; intros [|g' fs']; simpl;
    try discriminate.
  rewrite !andb_true_iff. intros [[[Hn Hh] _] Hrest] [|i] f f'; simpl.
  - intros [= <-] [= <-]. split; [now apply String.eqb_eq|].
    unfold sameHeader in Hh. rewrite !andb_true_iff in Hh.
    destruct Hh as [[_ Hk] _]. now apply bool_decide_eq_true in Hk.
  - now apply IH.
Qed.

(** X11.  The panic [RedundantConversion] is raised only for two struct
    types with the same number of fields that agree, index by index, on the
    names and on the kinds of their fields: a target whose fields are named
    otherwise, or that has fewer fields, passes the redundancy check. *)
Theorem redundancy_needs_same_fields (T1 T2 : rtype) (t1 : Value) (s : State) :
  (ConvertTo T1 T2 t1 s).1 = Panicked RedundantConversion ->
  exists ttyp1 e,
    TypeOf T1 t1 = Some ttyp1
    /\ shapesOk ttyp1 e T2
    /\ length (fieldsOf e) = length (fieldsOf T2)
    /\ forall i f1 f2,
         fieldsOf e !! i = Some f1 -> fieldsOf T2 !! i = Some f2 ->
         Name f1 = Name f2
         /\ Type_Kind (Typ f1) = Type_Kind (Typ f2).
Proof.
  intros Hrun.
  apply ConvertTo_panic_origin in Hrun as [Hv|(msg & [=] & _)].
  apply validate_panics in Hv
    as [[=]|[[=]|[[=]|[(_ & ty1 & e & t2 & HT1 & HT2 & Hs & Hc)
                      |(ty1 & e & t2 & j & _ & HT2 & Hs & _ & _ & Hcf & _)]]]].
  - apply TypeOf_zero_Some in HT2 as ->.
    exists ty1, e. split; [exact HT1|]. split; [exact Hs|].
    destruct Hs as (_ & _ & Hke & Hk2).
    split; [now apply ConvertibleTo_length|].
    unfold Type_ConvertibleTo, haveIdenticalUnderlyingType in Hc.
    apply orb_true_iff in Hc as [Heq|Hst].
    + apply rtype_eqb_eq in Heq as ->. intros i f1 f2 H1 H2.
      rewrite H1 in H2. now injection H2 as ->.
    + destruct (Kind_Struct_inv _ Hke) as [fs1 He].
      destruct (Kind_Struct_inv _ Hk2) as [fs2 Hfs2].
      rewrite identicalStructure_underlying, Hfs2, identicalStructure_struct,
        He in Hst.
      rewrite (fieldsOf_struct _ _ He), (fieldsOf_struct _ _ Hfs2).
      intros i f1 f2 H1 H2.
      destruct (identicalFields_lookup _ _ Hst i f2 f1 H2 H1) as [-> ->].
      auto.
  - destruct Hs as (_ & _ & Hke & Hk2).
    destruct (Kind_Struct_inv _ Hke) as [fs1 He].
    destruct (Kind_Struct_inv _ Hk2) as [fs2 Hfs2].
    destruct (checkField_panics _ _ _ _ _ _ He Hfs2 Hcf)
      as [(_ & _ & [=])|[(f1 & f2 & _ & _ & [[[=] _]|[[=] _]])|(_ & [=])]].
Qed.

Lemma redundancy_needs_same_fields_witness :
  exists ttyp1 e,
    TypeOf (PointerTo Type1) (VPointer (Some 2%N)) = Some ttyp1
    /\ shapesOk ttyp1 e Renamed
    /\ length (fieldsOf e) = length (fieldsOf Renamed)
    /\ forall i f1 f2,
         fieldsOf e !! i = Some f1 -> fieldsOf Renamed !! i = Some f2 ->
         Name f1 = Name f2
         /\ Type_Kind (Typ f1) = Type_Kind (Typ f2).
Proof.
  apply (redundancy_needs_same_fields (PointerTo Type1) Renamed
           (VPointer (Some 2%N)) beforeCall).
  reflexivity.
Defined.

(** X12.  No run ever panics with the message "T2 must be no larger than
    T1": the condition of line 84 compares a number with itself, so the
    panic of line 85 is unreachable, and no other panic of a run carries
    that message. *)
Theorem size_panic_never_raised (T1 T2 : rtype) (t1 : Value) (s : State) p :
  (ConvertTo T1 T2 t1 s).1 = Panicked p ->
  panicMessage p <> "T2 must be no larger than T1".
Proof.
  intros Hrun.
  apply ConvertTo_panic_origin in Hrun as [Hv|(msg & -> & Hmsg)];
    [|exact Hmsg].
  apply validate_panics in Hv
    as [->|[->|[->|[[-> _]|(ty1 & e & t2 & j & _ & _ & Hs & _ & _ & Hcf
                             & _)]]]];
    try discriminate.
  destruct Hs as (_ & _ & Hke & Hk2).
  destruct (Kind_Struct_inv _ Hke) as [fs1 He].
  destruct (Kind_Struct_inv _ Hk2) as [fs2 Hfs2].
  destruct (checkField_panics _ _ _ _ _ _ He Hfs2 Hcf)
    as [(_ & _ & ->)|[(f1 & f2 & _ & _ & [[-> _]|[-> _]])|(_ & ->)]];
    discriminate.
Qed.

Lemma size_panic_never_raised_witness :
  panicMessage (RuntimeError "reflect: Field index out of bounds")
  <> "T2 must be no larger than T1".
Proof.
  apply (size_panic_never_raised (PointerTo DocSmall) DocLarge
           (VPointer (Some 2%N)) oneObject).
  reflexivity.
Defined.

Lemma unsafeLoad_lookup (T2 : rtype) (a : addr) fs (s : State) :
  heap s !! a = Some (VStruct fs) ->
  unsafeLoad T2 (Some a) s =
  (Returned (VStruct (take (length (fieldsOf T2)) fs)), afterRead a s).
Proof. intros H. unfold unsafeLoad. now rewrite H. Qed.

Lemma deref_lookup (a : addr) (v : Value) (s : State) :
  heap s !! a = Some v -> deref (VPointer (Some a)) s = (Returned v, s).
Proof. intros H. unfold deref. now rewrite H. Qed.

(** X13.  [main], started in any state, returns normally; it prints 2 and
    then 2 again (what the field of the source points to, then what the
    field of the converted value points to), allocates two objects, reads
    the second once through the unsafe pointer, and leaves every other
    object of the heap as it was. *)
Theorem main_prints_the_same_value_twice (s : State) :
  (main s).1 = Returned tt
  /\ stdout (main s).2 = VInt 2 :: VInt 2 :: stdout s
  /\ unsafe_reads (main s).2 = N.succ (next s) :: unsafe_reads s
  /\ next (main s).2 = N.succ (N.succ (next s))
  /\ forall a, a <> next s -> a <> N.succ (next s) ->
               heap (main s).2 !! a = heap s !! a.
Proof.
  set (t1v := VStruct [VInt 1; VPointer (Some (next s)); VString "test"]).
  assert (<[N.succ (next s) := t1v]> (<[next s := VInt 2]> (heap s))
          !! N.succ (next s) = Some t1v) as Ht1
    by apply lookup_insert_eq.
  assert (<[N.succ (next s) := t1v]> (<[next s := VInt 2]> (heap s))
          !! next s = Some (VInt 2)) as Htwo.
  { rewrite lookup_insert_ne by lia. apply lookup_insert_eq. }
  assert (main s =
          (Returned tt,
           {| heap := <[N.succ (next s) := t1v]>
                        (<[next s := VInt 2]> (heap s));
              next := N.succ (N.succ (next s));
              unsafe_reads := N.succ (next s) :: unsafe_reads s;
              stdout := VInt 2 :: VInt 2 :: stdout s |})) as ->.
  { unfold main, mbind, M_bind, alloc, Println, field, lift.
    cbn [heap next unsafe_reads stdout]. fold t1v.
    rewrite (deref_lookup _ t1v) by exact Ht1.
    unfold t1v at 1. cbn [lookup list_lookup].
    rewrite (deref_lookup _ (VInt 2)) by exact Htwo.
    rewrite (ConvertTo_checked (PointerTo Type1) Type1 Type2)
      by (apply checkedInvariants_of_validate; reflexivity).
    cbn [ValueOf Value_UnsafePointer].
    rewrite (unsafeLoad_lookup Type2 _
               [VInt 1; VPointer (Some (next s)); VString "test"])
      by exact Ht1.
    unfold afterRead.
    cbn [heap next unsafe_reads stdout fieldsOf underlying Type2 length take
         lookup list_lookup].
    rewrite (deref_lookup _ (VInt 2)) by exact Htwo.
    reflexivity. }
  cbn [fst snd heap next unsafe_reads stdout].
  repeat split. intros a Ha1 Ha2.
  now rewrite !lookup_insert_ne by congruence.
Qed.

(** X14.  Narrowing composes: when a conversion to [T2] is accepted, the
    conversion of the same source to a target with the types of fewer
    leading fields of [T2] is accepted too, and it returns the leading
    fields of what the conversion to [T2] returns. *)
Theorem narrower_target_gives_prefix (T1 T2 T2' e : rtype) fs2'
  (a : addr) fs (s : State) :
  checkedInvariants T1 e T2 ->
  underlying T2' = StructOf fs2' ->
  length fs2' < length (fieldsOf T2) ->
  Typ <$> fs2' = Typ <$> take (length fs2') (fieldsOf T2) ->
  heap s !! a = Some (VStruct fs) ->
  ConvertTo T1 T2 (VPointer (Some a)) s
  = (Returned (VStruct (take (length (fieldsOf T2)) fs)), afterRead a s)
  /\ ConvertTo T1 T2' (VPointer (Some a)) s
     = (Returned (VStruct (take (length fs2')
                             (take (length (fieldsOf T2)) fs))),
        afterRead a s).
Proof.
  intros Hinv HT2' Hlen Htypes Ha.
  split.
  { rewrite (ConvertTo_checked _ _ _ _ _ Hinv). simpl.
    now apply unsafeLoad_lookup. }
  destruct Hinv as (Hs & Hsize & Hred & Hdecl & Hallow).
  red in Hsize.
  assert (forall i f2', fs2' !! i = Some f2' ->
                        exists f2, fieldsOf T2 !! i = Some f2
                                   /\ Typ f2 = Typ f2') as Hfield.
  { intros i f2' Hi. pose proof (lookup_lt_Some _ _ _ Hi) as Hlt.
    apply (f_equal (fun l => l !! i)) in Htypes.
    rewrite !list_lookup_fmap, lookup_take_lt, Hi in Htypes by exact Hlt.
    destruct (fieldsOf T2 !! i) as [f2|]; [|discriminate].
    injection Htypes as ->. eauto. }
  assert (checkedInvariants T1 e T2') as Hinv'.
  { destruct Hs as (Hk1 & Hel & Hke & Hk2).
    split; [|split; [|split; [|split]]].
    - repeat split; try assumption.
      now apply underlying_struct_Kind with fs2'.
    - red. rewrite (fieldsOf_struct _ _ HT2'). lia.
    - red. destruct (Type_ConvertibleTo e T2') eqn:Hc; [|reflexivity].
      apply ConvertibleTo_length in Hc;
        [|now apply underlying_struct_Kind with fs2'].
      rewrite (fieldsOf_struct _ _ HT2') in Hc. lia.
    - intros i f1 f2' H1 H2. rewrite (fieldsOf_struct _ _ HT2') in H2.
      destruct (Hfield i f2' H2) as (f2 & Hf2 & <-).
      now apply (Hdecl i f1 f2).
    - intros i f1 f2' H1 H2. rewrite (fieldsOf_struct _ _ HT2') in H2.
      destruct (Hfield i f2' H2) as (f2 & Hf2 & <-).
      now apply (Hallow i f1 f2). }
  rewrite (ConvertTo_checked _ _ _ _ _ Hinv').
  cbn [ValueOf Value_UnsafePointer].
  rewrite (unsafeLoad_lookup _ _ _ _ Ha), (fieldsOf_struct _ _ HT2').
  rewrite take_take, Nat.min_l by lia. reflexivity.
Qed.

Lemma narrower_target_gives_prefix_witness :
  ConvertTo (PointerTo Type1) OnlyInt8 (VPointer (Some 2%N)) beforeCall
  = (Returned (VStruct [VInt 1]), afterRead 2%N beforeCall).
Proof.
  apply (narrower_target_gives_prefix (PointerTo Type1) Type2 OnlyInt8 Type1
           (fieldsOf OnlyInt8) 2%N
           [VInt 1; VPointer (Some 1%N); VString "test"] beforeCall).
  - apply checkedInvariants_of_validate; reflexivity.
  - reflexivity.
  - simpl. lia.
  - reflexivity.
  - reflexivity.
Defined.

End Further.
